(** * A shallow embedding of the telephone registry (src/index.js)

    The development follows the source file top to bottom: JavaScript
    strings and the two regular expressions of [validatePhoneNumber],
    thrown values and promises, [PhoneEvent], [PhoneNumberObserver],
    [Telephone], and then the properties of the specification. *)

From Stdlib Require Import ZArith NArith Ascii String Lia.
From stdpp Require Import gmap strings list.

Local Open Scope Z_scope.
Local Open Scope nat_scope.

(** ** JavaScript strings

    A JavaScript string is a sequence of UTF-16 code units.  A regular
    expression without the [u] flag, as both expressions of the source
    are, matches code unit by code unit, so a string is modelled as the
    list of its code units.  Literals of the source are written with
    [js]. *)

Abbreviation jsstring := (list N).

Definition js (s : string) : jsstring :=
  map N_of_ascii (list_ascii_of_string s).

Module Char.

Definition plus : N := 43.      (* '+' *)
Definition hyphen : N := 45.    (* '-' *)
Definition space : N := 32.     (* ' ' *)
Definition tab : N := 9.

(** [\d] without the [u] flag: the ten ASCII digits. *)
Definition digit (c : N) : bool := ((48 <=? c) && (c <=? 57))%N.

(** [\s]: the WhiteSpace and LineTerminator code points of ECMAScript,
    all of them in the basic plane: TAB, LF, VT, FF, CR, SPACE, NBSP,
    U+1680, U+2000..U+200A, U+2028, U+2029, U+202F, U+205F, U+3000 and
    U+FEFF. *)
Definition whitespace (c : N) : bool :=
  (((9 <=? c) && (c <=? 13)) || (c =? 32) || (c =? 160) || (c =? 5760)
   || ((8192 <=? c) && (c <=? 8202)) || (c =? 8232) || (c =? 8233)
   || (c =? 8239) || (c =? 8287) || (c =? 12288) || (c =? 65279))%N.

(** The class [[\s-]] of the normalising [replace]. *)
Definition separator (c : N) : bool := whitespace c || (c =? hyphen)%N.

(** The class [[\d\s-]] of [phoneRegex]. *)
Definition phone (c : N) : bool :=
  digit c || whitespace c || (c =? hyphen)%N.

End Char.

(** ** Regular expressions

    The fragment of the regular-expression syntax the source uses, with a
    matcher by derivatives.  [AtLeast n r] is [r{n,}] and [Opt r] is
    [r?]. *)

Inductive regex : Type :=
| Void
| Eps
| Chr (c : N)
| Class (p : N -> bool)
| Seq (r1 r2 : regex)
| Alt (r1 r2 : regex)
| AtLeast (n : nat) (r : regex).

Definition Opt (r : regex) : regex := Alt r Eps.

Fixpoint nullable (r : regex) : bool :=
  match r with
  | Void => false
  | Eps => true
  | Chr _ => false
  | Class _ => false
  | Seq r1 r2 => nullable r1 && nullable r2
  | Alt r1 r2 => nullable r1 || nullable r2
  | AtLeast n r => Nat.eqb n 0 || nullable r
  end.

Fixpoint deriv (c : N) (r : regex) : regex :=
  match r with
  | Void => Void
  | Eps => Void
  | Chr d => if (c =? d)%N then Eps else Void
  | Class p => if p c then Eps else Void
  | Seq r1 r2 =>
      if nullable r1
      then Alt (Seq (deriv c r1) r2) (deriv c r2)
      else Seq (deriv c r1) r2
  | Alt r1 r2 => Alt (deriv c r1) (deriv c r2)
  | AtLeast n r => Seq (deriv c r) (AtLeast (Nat.pred n) r)
  end.

(** [matches r s]: the whole of [s] matches [r]. *)
Fixpoint matches (r : regex) (s : jsstring) : bool :=
  match s with
  | [] => nullable r
  | c :: s' => matches (deriv c r) s'
  end.

(** [/^r$/.test(s)]: with both anchors and no [m] flag the test succeeds
    exactly when the whole string matches [r]. *)
Definition RegExp_test_anchored (r : regex) (s : jsstring) : bool :=
  matches r s.

(** [s.replace(/[p]/g, replacement)] for a one-code-unit class [p]: every
    code unit of the class is replaced, the others are kept. *)
Definition String_replace_class (p : N -> bool) (replacement s : jsstring)
  : jsstring :=
  flat_map (fun c => if p c then replacement else [c]) s.

(** The words a regular expression denotes. *)
Inductive lang : regex -> jsstring -> Prop :=
| lang_eps : lang Eps []
| lang_chr c : lang (Chr c) [c]
| lang_class p c : p c = true -> lang (Class p) [c]
| lang_seq r1 r2 s1 s2 :
    lang r1 s1 -> lang r2 s2 -> lang (Seq r1 r2) (s1 ++ s2)
| lang_alt_l r1 r2 s : lang r1 s -> lang (Alt r1 r2) s
| lang_alt_r r1 r2 s : lang r2 s -> lang (Alt r1 r2) s
| lang_atleast_done r : lang (AtLeast 0 r) []
| lang_atleast_step n r s1 s2 :
    lang r s1 -> lang (AtLeast (Nat.pred n) r) s2 ->
    lang (AtLeast n r) (s1 ++ s2).

(** ** Thrown values

    A JavaScript [throw] or a rejection carries any value.  The values
    kept here are the ones the source can tell apart: it reads the
    [message] property of what it catches and puts it in a template
    literal.  [JError] is an object whose [message] is a string, as an
    [Error] has; [JExotic e] is any object whose [message] cannot be
    read or cannot be turned into a string (a getter that throws, a
    [Symbol]): evaluating [`${o.message}`] throws [e]. *)

Inductive jsval : Type :=
| JUndefined
| JNull
| JBool (b : bool)
| JNum (z : Z)
| JStr (s : jsstring)
| JError (name : string) (message : jsstring)
| JExotic (thrown : jsval).

Inductive completion (A : Type) : Type :=
| Return (a : A)
| Throw (e : jsval).

Arguments Return {A} a.
Arguments Throw {A} e.

(** [class PhoneNumberError extends Error]: [new PhoneNumberError(message)]. *)
Definition PhoneNumberError (message : jsstring) : jsval :=
  JError "PhoneNumberError" message.

(** ** Telephone.validatePhoneNumber *)

(** [/^\+?[\d\s-]{10,}$/] *)
Definition phoneRegex : regex :=
  Seq (Opt (Chr Char.plus)) (AtLeast 10 (Class Char.phone)).

Definition validatePhoneNumber (phoneNumber : jsstring) : completion jsstring :=
  if negb (RegExp_test_anchored phoneRegex phoneNumber)
  then Throw (PhoneNumberError (js "Invalid phone number format"))
  else Return (String_replace_class Char.separator [] phoneNumber).

(** The [TypeError] of reading [message] of [undefined] or of [null].
    The text is the engine's; it is given as Node (V8) words it. *)
Definition TypeError_cannot_read_message (what : jsstring) : jsval :=
  JError "TypeError"
    (js "Cannot read properties of " ++ what ++ js " (reading 'message')").

(** [`${error.message}`] inside a template literal.  Reading a property
    of [undefined] or [null] throws a [TypeError]; an [Error] object
    yields its message; a primitive has no [message] and prints as
    ["undefined"]; an exotic object throws. *)
Definition template_message (error : jsval) : completion jsstring :=
  match error with
  | JUndefined => Throw (TypeError_cannot_read_message (js "undefined"))
  | JNull => Throw (TypeError_cannot_read_message (js "null"))
  | JError _ message => Return message
  | JBool _ | JNum _ | JStr _ => Return (js "undefined")
  | JExotic thrown => Throw thrown
  end.

(** ** The console and the clock

    [instant] is the reading of the clock, in milliseconds as [Date]
    has it.  What the program writes or calls is recorded with the
    instant at which it happens. *)

Abbreviation instant := Z.

Inductive effect : Type :=
| ConsoleLog (line : jsstring)
| ConsoleError (line : jsstring)
| HandlerCall (eventType phoneNumber : jsstring).

Abbreviation trace := (list (instant * effect)).

(** ** Promises

    A promise is modelled by its fate: the instant at which it settles
    and how, or [Pending] when it never settles.  Microtask turns are not
    counted: what is settled when it is awaited resumes at the same
    instant. *)

Inductive settlement (A : Type) : Type :=
| Fulfilled (v : A)
| Rejected (reason : jsval).

Arguments Fulfilled {A} v.
Arguments Rejected {A} reason.

Inductive promise (A : Type) : Type :=
| Settles (when : instant) (s : settlement A)
| Pending.

Arguments Settles {A} when s.
Arguments Pending {A}.

(** What a custom handler hands back: a plain value, or a promise that
    settles some delay after the call, or one that never does. *)
Inductive eventual : Type :=
| After (delay : nat) (s : settlement unit)
| Never.

Inductive returned : Type :=
| Plain
| Thenable (e : eventual).

(** A handler is any function of the phone number: it throws, or it
    returns.  A handler that calls back into the registry is a further
    operation on it and is not part of the handler's outcome. *)
Abbreviation handler := (jsstring -> completion returned).

(** [Promise.resolve(v)] *)
Definition Promise_resolve (now : instant) (v : returned) : promise unit :=
  match v with
  | Plain => Settles now (Fulfilled tt)
  | Thenable (After delay s) => Settles (now + Z.of_nat delay)%Z s
  | Thenable Never => Pending
  end.

(** The earliest rejection among [ps], the first of the list among
    rejections of the same instant. *)
Fixpoint first_rejection (ps : list (promise unit)) : option (instant * jsval) :=
  match ps with
  | [] => None
  | p :: ps' =>
      let rest := first_rejection ps' in
      match p with
      | Settles t (Rejected e) =>
          match rest with
          | Some (t', e') => if (t' <? t)%Z then Some (t', e') else Some (t, e)
          | None => Some (t, e)
          end
      | _ => rest
      end
  end.

(** The instant at which the last of [ps] has settled, when all do. *)
Fixpoint all_settled (now : instant) (ps : list (promise unit)) : option instant :=
  match ps with
  | [] => Some now
  | Settles t _ :: ps' => Z.max t <$> all_settled now ps'
  | Pending :: _ => None
  end.

(** [Promise.all(ps)]: rejected as soon as one of [ps] is, fulfilled
    once all are, pending otherwise. *)
Definition Promise_all (now : instant) (ps : list (promise unit)) : promise unit :=
  match first_rejection ps with
  | Some (t, e) => Settles t (Rejected e)
  | None =>
      match all_settled now ps with
      | Some t => Settles t (Fulfilled tt)
      | None => Pending
      end
  end.

(** [p.catch(onRejected)]: the callback runs when [p] rejects; the new
    promise is fulfilled when the callback returns and rejected when it
    throws. *)
Definition Promise_catch (p : promise unit)
    (onRejected : jsval -> list effect * completion unit) : trace * promise unit :=
  match p with
  | Settles t (Rejected error) =>
      let '(fx, c) := onRejected error in
      (map (pair t) fx,
       Settles t match c with
                 | Return _ => Fulfilled tt
                 | Throw e' => Rejected e'
                 end)
  | _ => ([], p)
  end.

(** The [catch] block of the three [Telephone] methods:
    [console.error(`${prefix}${error.message}`); throw error].  It gives
    what is written and the value the block throws. *)
Definition catch_log_rethrow (now : instant) (prefix : jsstring)
    (error : jsval) : trace * jsval :=
  match template_message error with
  | Return message => ([(now, ConsoleError (prefix ++ message))], error)
  | Throw e' => ([], e')
  end.

(** ** class PhoneEvent *)

Module PhoneEvent.

Record t : Type := new {
  type : jsstring;
  phoneNumber : jsstring;
  timestamp : instant
}.

End PhoneEvent.

(** ** class PhoneNumberObserver *)

Module PhoneNumberObserver.

Record t : Type := mk {
  id : jsstring;
  types : gset jsstring;
  customHandlers : gmap jsstring handler
}.

(** [constructor(id, ...types)] *)
Definition constructor (id : jsstring) (types : list jsstring) : t :=
  {| id := id; types := list_to_set types; customHandlers := ∅ |}.

Definition addCustomNotification (type : jsstring) (h : handler) (o : t) : t :=
  {| id := id o;
     types := types o ∪ {[type]};
     customHandlers := <[type := h]> (customHandlers o) |}.

(** An action [notify] has started, with the promise of its
    completion.  [console.log] is done when it returns. *)
Record launched : Type := Launched {
  action : effect;
  completes : promise unit
}.

(** [async notify(phoneNumber, eventType = 'dial')].  The body runs to
    its only [await] at the instant of the call; a handler that throws
    leaves the body at once and rejects the promise of [notify]. *)
Definition notify (o : t) (phoneNumber : jsstring)
    (eventType : option jsstring) (now : instant)
  : list launched * promise unit :=
  let eventType := default (js "dial") eventType in
  let simple :=
    if decide (js "simple" ∈ types o)
    then [Launched (ConsoleLog phoneNumber) (Promise_resolve now Plain)]
    else [] in
  let detailed :=
    if decide (js "detailed" ∈ types o)
    then [Launched (ConsoleLog (js "Now Dialing " ++ phoneNumber ++ js "..."))
                   (Promise_resolve now Plain)]
    else [] in
  match customHandlers o !! eventType with
  | Some h =>
      match h phoneNumber with
      | Return v =>
          let custom :=
            [Launched (HandlerCall eventType phoneNumber) (Promise_resolve now v)] in
          (simple ++ detailed ++ custom,
           Promise_all now (map completes (simple ++ detailed ++ custom)))
      | Throw e =>
          (simple ++ detailed ++
             [Launched (HandlerCall eventType phoneNumber) (Settles now (Rejected e))],
           Settles now (Rejected e))
      end
  | None =>
      (simple ++ detailed, Promise_all now (map completes (simple ++ detailed)))
  end.

End PhoneNumberObserver.

(** Observers are objects: the registry holds references to them, and
    what an observer subscribes to can change after it is registered.
    [heap] gives the observer behind each reference. *)
Abbreviation ref := nat.
Abbreviation heap := (ref -> PhoneNumberObserver.t).

(** ** class Telephone *)

Module Telephone.

(** [phoneNumbers] is a [Set] of strings, only ever asked for
    membership.  [observers] is a [Set] of references that
    [notifyObservers] walks in insertion order, so it is kept as the
    list of its members in that order. *)
Record t : Type := mk {
  phoneNumbers : gset jsstring;
  observers : list ref;
  eventHistory : list PhoneEvent.t;
  maxHistorySize : nat
}.

(** [constructor()]: the constructor declares no parameter; whatever
    arguments a call passes are ignored. *)
Definition constructor (args : list jsval) : t :=
  {| phoneNumbers := ∅;
     observers := [];
     eventHistory := [];
     maxHistorySize := 100 |}.

(** [Set.prototype.add] and [Set.prototype.delete] on [observers]. *)
Definition Set_add (r : ref) (s : list ref) : list ref :=
  if decide (r ∈ s) then s else s ++ [r].

Definition Set_delete (r : ref) (s : list ref) : bool * list ref :=
  (bool_decide (r ∈ s), filter (fun x => x ≠ r) s).

Definition addToHistory (event : PhoneEvent.t) (tel : t) : t :=
  let pushed := eventHistory tel ++ [event] in
  {| phoneNumbers := phoneNumbers tel;
     observers := observers tel;
     eventHistory :=
       if maxHistorySize tel <? length pushed then tail pushed else pushed;
     maxHistorySize := maxHistorySize tel |}.

(** The [filter] argument of [getEventHistory].  An option that is not
    given is [None]; [type] is a string and the two dates are [Date]
    objects, given by their time value. *)
Record filter_options : Type := Filter {
  type : option jsstring;
  startDate : option instant;
  endDate : option instant
}.

(** [if (filter.type)]: a string is truthy unless it is empty. *)
Definition truthy_string (o : option jsstring) : option jsstring :=
  match o with
  | Some (c :: s) => Some (c :: s)
  | _ => None
  end.

(** [getEventHistory(filter = {})]; a [Date] object is always truthy. *)
Definition getEventHistory (f : filter_options) (tel : t) : list PhoneEvent.t :=
  let filteredHistory := eventHistory tel in
  let filteredHistory :=
    match truthy_string (type f) with
    | Some ty => filter (fun event => PhoneEvent.type event = ty) filteredHistory
    | None => filteredHistory
    end in
  let filteredHistory :=
    match startDate f with
    | Some d => filter (fun event => (d <= PhoneEvent.timestamp event)%Z) filteredHistory
    | None => filteredHistory
    end in
  let filteredHistory :=
    match endDate f with
    | Some d => filter (fun event => (PhoneEvent.timestamp event <= d)%Z) filteredHistory
    | None => filteredHistory
    end in
  filteredHistory.

Definition addPhoneNumber (now : instant) (phoneNumber : jsstring) (tel : t)
  : t * trace * completion jsstring :=
  match validatePhoneNumber phoneNumber with
  | Return normalizedNumber =>
      let tel1 :=
        {| phoneNumbers := phoneNumbers tel ∪ {[normalizedNumber]};
           observers := observers tel;
           eventHistory := eventHistory tel;
           maxHistorySize := maxHistorySize tel |} in
      let tel2 :=
        addToHistory (PhoneEvent.new (js "add") normalizedNumber now) tel1 in
      (tel2,
       [(now, ConsoleLog (js "Phone number " ++ normalizedNumber ++ js " added."))],
       Return normalizedNumber)
  | Throw error =>
      let '(tr, e) :=
        catch_log_rethrow now (js "Failed to add phone number: ") error in
      (tel, tr, Throw e)
  end.

Definition removePhoneNumber (now : instant) (phoneNumber : jsstring) (tel : t)
  : t * trace * completion bool :=
  match validatePhoneNumber phoneNumber with
  | Return normalizedNumber =>
      if decide (normalizedNumber ∈ phoneNumbers tel) then
        let tel1 :=
          {| phoneNumbers := phoneNumbers tel ∖ {[normalizedNumber]};
             observers := observers tel;
             eventHistory := eventHistory tel;
             maxHistorySize := maxHistorySize tel |} in
        let tel2 :=
          addToHistory (PhoneEvent.new (js "remove") normalizedNumber now) tel1 in
        (tel2,
         [(now, ConsoleLog (js "Phone number " ++ normalizedNumber ++ js " removed."))],
         Return true)
      else
        (tel,
         [(now, ConsoleLog (js "Phone number " ++ normalizedNumber ++ js " was not found."))],
         Return false)
  | Throw error =>
      let '(tr, e) :=
        catch_log_rethrow now (js "Failed to remove phone number: ") error in
      (tel, tr, Throw e)
  end.

(** The callback of [.catch] in [notifyObservers]. *)
Definition report_failure (observer : PhoneNumberObserver.t) (error : jsval)
  : list effect * completion unit :=
  match template_message error with
  | Return message =>
      ([ConsoleError (js "Failed to notify observer "
                        ++ PhoneNumberObserver.id observer ++ js ": " ++ message)],
       Return tt)
  | Throw e' => ([], Throw e')
  end.

(** One element of the [map] in [notifyObservers]:
    [observer.notify(phoneNumber).catch(...)].  It gives what [notify]
    does at once, what the [.catch] callback writes later, and the
    promise [.catch] returns. *)
Definition notifyObserver (H : heap) (now : instant) (phoneNumber : jsstring)
    (r : ref) : trace * trace * promise unit :=
  let observer := H r in
  let '(started, p) := PhoneNumberObserver.notify observer phoneNumber None now in
  let '(late, p') := Promise_catch p (report_failure observer) in
  (map (fun l => (now, PhoneNumberObserver.action l)) started, late, p').

(** [async notifyObservers(phoneNumber)].  The [map] starts the [notify]
    of every observer in turn, each running to its [await]; the [.catch]
    callbacks run after that, when a promise is rejected.  Among the
    entries of one instant the order of the trace is the order of the
    program. *)
Definition notifyObservers (H : heap) (now : instant) (phoneNumber : jsstring)
    (tel : t) : trace * promise unit :=
  let notifications := map (notifyObserver H now phoneNumber) (observers tel) in
  (concat (map (fun x => x.1.1) notifications)
     ++ concat (map (fun x => x.1.2) notifications),
   Promise_all now (map snd notifications)).

(** The body of [async dialPhoneNumber(phoneNumber)], as the promise
    the call returns. *)
Definition dialPhoneNumber_body (H : heap) (now : instant) (phoneNumber : jsstring)
    (tel : t) : t * trace * promise bool :=
  match validatePhoneNumber phoneNumber with
  | Return normalizedNumber =>
      if decide (normalizedNumber ∈ phoneNumbers tel) then
        let dialing :=
          (now, ConsoleLog (js "Dialing " ++ normalizedNumber ++ js "...")) in
        let tel1 :=
          addToHistory (PhoneEvent.new (js "dial") normalizedNumber now) tel in
        let '(tr, p) := notifyObservers H now normalizedNumber tel1 in
        match p with
        | Settles t (Fulfilled _) =>
            (tel1, dialing :: tr, Settles t (Fulfilled true))
        | Settles t (Rejected error) =>
            let '(tr', e) :=
              catch_log_rethrow t (js "Failed to dial number: ") error in
            (tel1, dialing :: tr ++ tr', Settles t (Rejected e))
        | Pending => (tel1, dialing :: tr, Pending)
        end
      else
        (tel,
         [(now, ConsoleLog (js "Phone number " ++ normalizedNumber
                              ++ js " not found. Please add the number first."))],
         Settles now (Fulfilled false))
  | Throw error =>
      let '(tr, e) :=
        catch_log_rethrow now (js "Failed to dial number: ") error in
      (tel, tr, Settles now (Rejected e))
  end.

(** [async dialPhoneNumber(phoneNumber)]: the call of an [async]
    function never throws to its caller; what the body throws rejects
    the promise that the call returns. *)
Definition dialPhoneNumber (H : heap) (now : instant) (phoneNumber : jsstring)
    (tel : t) : t * trace * completion (promise bool) :=
  let '(tel', tr, p) := dialPhoneNumber_body H now phoneNumber tel in
  (tel', tr, Return p).

Definition addObserver (H : heap) (now : instant) (observer : ref) (tel : t)
  : t * trace :=
  let tel1 :=
    {| phoneNumbers := phoneNumbers tel;
       observers := Set_add observer (observers tel);
       eventHistory := eventHistory tel;
       maxHistorySize := maxHistorySize tel |} in
  let oid := PhoneNumberObserver.id (H observer) in
  (addToHistory (PhoneEvent.new (js "observerAdded") oid now) tel1,
   [(now, ConsoleLog (js "Observer " ++ oid ++ js " added."))]).

Definition removeObserver (H : heap) (now : instant) (observer : ref) (tel : t)
  : t * trace * bool :=
  let oid := PhoneNumberObserver.id (H observer) in
  let '(found, rest) := Set_delete observer (observers tel) in
  if found then
    let tel1 :=
      {| phoneNumbers := phoneNumbers tel;
         observers := rest;
         eventHistory := eventHistory tel;
         maxHistorySize := maxHistorySize tel |} in
    (addToHistory (PhoneEvent.new (js "observerRemoved") oid now) tel1,
     [(now, ConsoleLog (js "Observer " ++ oid ++ js " removed."))],
     true)
  else
    (tel, [(now, ConsoleLog (js "Observer " ++ oid ++ js " not found."))], false).

End Telephone.

(** ** Sequences of operations

    The registry and the observers it refers to, and the operations a
    caller can apply to them, each at the instant the clock shows. *)

Record World : Type := mkWorld {
  store : heap;
  telephone : Telephone.t
}.

Inductive operation : Type :=
| AddPhoneNumber (phoneNumber : jsstring)
| RemovePhoneNumber (phoneNumber : jsstring)
| DialPhoneNumber (phoneNumber : jsstring)
| AddObserver (observer : ref)
| RemoveObserver (observer : ref)
| GetEventHistory (f : Telephone.filter_options)
| AddCustomNotification (observer : ref) (type : jsstring) (h : handler).

Definition step (now : instant) (op : operation) (w : World) : World :=
  let H := store w in
  let tel := telephone w in
  match op with
  | AddPhoneNumber raw => mkWorld H (Telephone.addPhoneNumber now raw tel).1.1
  | RemovePhoneNumber raw => mkWorld H (Telephone.removePhoneNumber now raw tel).1.1
  | DialPhoneNumber raw => mkWorld H (Telephone.dialPhoneNumber H now raw tel).1.1
  | AddObserver r => mkWorld H (Telephone.addObserver H now r tel).1
  | RemoveObserver r => mkWorld H (Telephone.removeObserver H now r tel).1.1
  | GetEventHistory f => w
  | AddCustomNotification r type h =>
      mkWorld
        (fun r' =>
           if decide (r' = r)
           then PhoneNumberObserver.addCustomNotification type h (H r)
           else H r')
        tel
  end.

Fixpoint run (ops : list (instant * operation)) (w : World) : World :=
  match ops with
  | [] => w
  | (now, op) :: ops' => run ops' (step now op w)
  end.

(** A registry fresh from its constructor, over any observers. *)
Definition fresh (H : heap) : World := mkWorld H (Telephone.constructor []).

(** ** The specification's side

    The definitions below restate the wording of the specification, to
    be compared with the program. *)

Module Spec.

(** "an optional leading [+], then at least 10 characters each in the
    class", over the whole string. *)
Definition format (class : N -> bool) (s : jsstring) : Prop :=
  exists body : jsstring,
    (s = body \/ s = Char.plus :: body)
    /\ 10 <= length body
    /\ Forall (fun c => class c = true) body.

(** [s] after its leading [+], if it has one. *)
Definition after_plus (s : jsstring) : jsstring :=
  match s with
  | c :: r => if (c =? Char.plus)%N then r else s
  | [] => []
  end.

(** "a digit, space, or hyphen", the space being U+0020. *)
Definition digit_space_hyphen (c : N) : bool :=
  Char.digit c || (c =? Char.space)%N || (c =? Char.hyphen)%N.

(** "[s] with all ... removed" *)
Definition without (class : N -> bool) (s : jsstring) : jsstring :=
  List.filter (fun c => negb (class c)) s.

(** The last [n] elements of a list, in their order. *)
Definition most_recent {A : Type} (n : nat) (l : list A) : list A :=
  drop (length l - n) l.

(** The event the specification (section 4.4) has each operation
    append, if any. *)
Definition appended (now : instant) (op : operation) (w : World)
  : list PhoneEvent.t :=
  let known n := bool_decide (n ∈ Telephone.phoneNumbers (telephone w)) in
  let oid r := PhoneNumberObserver.id (store w r) in
  match op with
  | AddPhoneNumber raw =>
      match validatePhoneNumber raw with
      | Return n => [PhoneEvent.new (js "add") n now]
      | Throw _ => []
      end
  | RemovePhoneNumber raw =>
      match validatePhoneNumber raw with
      | Return n => if known n then [PhoneEvent.new (js "remove") n now] else []
      | Throw _ => []
      end
  | DialPhoneNumber raw =>
      match validatePhoneNumber raw with
      | Return n => if known n then [PhoneEvent.new (js "dial") n now] else []
      | Throw _ => []
      end
  | AddObserver r => [PhoneEvent.new (js "observerAdded") (oid r) now]
  | RemoveObserver r =>
      if bool_decide (r ∈ Telephone.observers (telephone w))
      then [PhoneEvent.new (js "observerRemoved") (oid r) now]
      else []
  | GetEventHistory _ => []
  | AddCustomNotification _ _ _ => []
  end.

(** All the events a sequence of operations appends, oldest first. *)
Fixpoint all_appended (ops : list (instant * operation)) (w : World)
  : list PhoneEvent.t :=
  match ops with
  | [] => []
  | (now, op) :: ops' => appended now op w ++ all_appended ops' (step now op w)
  end.

(** "the conjunction of the provided options", an option being
    provided when the filter holds a value for it. *)
Definition satisfies (f : Telephone.filter_options) (event : PhoneEvent.t) : Prop :=
  match Telephone.type f with
  | Some ty => PhoneEvent.type event = ty
  | None => True
  end
  /\ match Telephone.startDate f with
     | Some d => (d <= PhoneEvent.timestamp event)%Z
     | None => True
     end
  /\ match Telephone.endDate f with
     | Some d => (PhoneEvent.timestamp event <= d)%Z
     | None => True
     end.

(** The same, with a [type] option that is the empty string counted as
    not provided. *)
Definition satisfies_truthy (f : Telephone.filter_options) (event : PhoneEvent.t)
  : Prop :=
  match Telephone.type f with
  | Some (c :: ty) => PhoneEvent.type event = c :: ty
  | _ => True
  end
  /\ match Telephone.startDate f with
     | Some d => (d <= PhoneEvent.timestamp event)%Z
     | None => True
     end
  /\ match Telephone.endDate f with
     | Some d => (PhoneEvent.timestamp event <= d)%Z
     | None => True
     end.

(** The built-in actions an observer's tags select. *)
Definition builtin_actions (o : PhoneNumberObserver.t) (phoneNumber : jsstring)
  : list effect :=
  (if bool_decide (js "simple" ∈ PhoneNumberObserver.types o)
   then [ConsoleLog phoneNumber] else [])
  ++ (if bool_decide (js "detailed" ∈ PhoneNumberObserver.types o)
      then [ConsoleLog (js "Now Dialing " ++ phoneNumber ++ js "...")] else []).

(** The custom action: the handler registered for the event type. *)
Definition custom_actions (o : PhoneNumberObserver.t) (phoneNumber : jsstring)
    (eventType : jsstring) : list effect :=
  if bool_decide (is_Some (PhoneNumberObserver.customHandlers o !! eventType))
  then [HandlerCall eventType phoneNumber] else [].

(** The built-in actions as [notify] starts them: done at once. *)
Definition builtin_launched (o : PhoneNumberObserver.t) (phoneNumber : jsstring)
    (now : instant) : list PhoneNumberObserver.launched :=
  map (fun a => PhoneNumberObserver.Launched a (Settles now (Fulfilled tt)))
      (builtin_actions o phoneNumber).

Definition is_builtin (a : effect) : bool :=
  match a with
  | ConsoleLog _ => true
  | _ => false
  end.

End Spec.

#[global] Instance satisfies_dec f event : Decision (Spec.satisfies f event).
Proof.
  unfold Spec.satisfies.
  destruct (Telephone.type f), (Telephone.startDate f), (Telephone.endDate f);
    apply _.
Defined.

#[global] Instance satisfies_truthy_dec f event :
  Decision (Spec.satisfies_truthy f event).
Proof.
  unfold Spec.satisfies_truthy.
  destruct (Telephone.type f) as [[|c ty]|], (Telephone.startDate f),
    (Telephone.endDate f); apply _.
Defined.

(** ** Inputs used below *)

Module Example.

(** ["123456789\t0"]: nine digits, a TAB, a digit. *)
Definition tabbed : jsstring := js "123456789" ++ [Char.tab] ++ js "0".

Definition ten_hyphens : jsstring := js "----------".

Definition invalid_format : jsval :=
  PhoneNumberError (js "Invalid phone number format").

(** [new PhoneNumberObserver('obs1', 'simple')] with
    [addCustomNotification('emergency', h)]. *)
Definition simple_with_emergency (h : handler) : PhoneNumberObserver.t :=
  PhoneNumberObserver.addCustomNotification (js "emergency") h
    (PhoneNumberObserver.constructor (js "obs1") [js "simple"]).

(** [number => Promise.reject()]: a promise rejected with no reason. *)
Definition rejects_with_undefined : handler :=
  fun _ => Return (Thenable (After 0 (Rejected JUndefined))).

(** Every reference is an observer with that handler for [dial]. *)
Definition H_rejecting : heap :=
  fun _ =>
    PhoneNumberObserver.addCustomNotification (js "dial") rejects_with_undefined
      (PhoneNumberObserver.constructor (js "obs1") [js "simple"]).

(** [addObserver(obs1)] then [addPhoneNumber('+1-234-567-8900')]. *)
Definition registered : World :=
  run [(0%Z, AddObserver 0); (1%Z, AddPhoneNumber (js "+1-234-567-8900"))]
      (fresh H_rejecting).

(** [{ type: '' }] *)
Definition empty_type : Telephone.filter_options :=
  Telephone.Filter (Some []) None None.

(** A registry after one [addPhoneNumber('+1-234-567-8900')]. *)
Definition one_added : Telephone.t :=
  (Telephone.addPhoneNumber 1%Z (js "+1-234-567-8900") (Telephone.constructor [])).1.1.

End Example.

(** ** Shapes of numbers and events *)

Module Shape.

(** The leading [+] of a string, if it has one. *)
Definition plus_prefix (s : jsstring) : jsstring :=
  match s with
  | c :: _ => if (c =? Char.plus)%N then [Char.plus] else []
  | [] => []
  end.

(** Digits only, after an optional leading [+]. *)
Definition normalized (n : jsstring) : Prop :=
  Forall (fun c => Char.digit c = true) (Spec.after_plus n).

(** The event [e] is one that the operation [op], applied over the
    observers [H], hands to [addToHistory]. *)
Definition logged_by (H : heap) (op : operation) (e : PhoneEvent.t) : Prop :=
  match op with
  | AddPhoneNumber raw =>
      PhoneEvent.type e = js "add"
      /\ validatePhoneNumber raw = Return (PhoneEvent.phoneNumber e)
  | RemovePhoneNumber raw =>
      PhoneEvent.type e = js "remove"
      /\ validatePhoneNumber raw = Return (PhoneEvent.phoneNumber e)
  | DialPhoneNumber raw =>
      PhoneEvent.type e = js "dial"
      /\ validatePhoneNumber raw = Return (PhoneEvent.phoneNumber e)
  | AddObserver r =>
      PhoneEvent.type e = js "observerAdded"
      /\ PhoneEvent.phoneNumber e = PhoneNumberObserver.id (H r)
  | RemoveObserver r =>
      PhoneEvent.type e = js "observerRemoved"
      /\ PhoneEvent.phoneNumber e = PhoneNumberObserver.id (H r)
  | GetEventHistory _ => False
  | AddCustomNotification _ _ _ => False
  end.

(** [{ type: 'dial' }] *)
Definition dial_only : Telephone.filter_options :=
  Telephone.Filter (Some (js "dial")) None None.

(** [throw new Error(message)] *)
Definition throws_error (message : jsstring) : handler :=
  fun _ => Throw (JError "Error" message).

(** Every reference is an observer [obs1], subscribed to [simple], whose
    handler for [dial] throws [new Error('boom')]. *)
Definition H_throwing : heap :=
  fun _ =>
    PhoneNumberObserver.addCustomNotification (js "dial") (throws_error (js "boom"))
      (PhoneNumberObserver.constructor (js "obs1") [js "simple"]).

End Shape.

(** ** Arrays as objects

    [getEventHistory] builds new arrays and returns the last one.  To
    say what becomes of the array of the log, arrays are kept here in a
    store, by address; a new array takes an address that is not in use. *)

Module Arrays.

Abbreviation store := (gmap nat (list PhoneEvent.t)).

Definition alloc (l : list PhoneEvent.t) (m : store) : nat * store :=
  let a := base.fresh (dom m) in
  (a, <[a := l]> m).

(** [[...a]] *)
Definition spread (a : nat) (m : store) : nat * store :=
  alloc (default [] (m !! a)) m.

(** [a.filter(P)] *)
Definition Array_filter (P : PhoneEvent.t -> Prop) `{!forall x, Decision (P x)}
    (a : nat) (m : store) : nat * store :=
  alloc (filter P (default [] (m !! a))) m.

(** [getEventHistory(filter = {})], [eventHistory] being the address of
    [this.eventHistory]. *)
Definition getEventHistory (f : Telephone.filter_options) (eventHistory : nat)
    (m : store) : nat * store :=
  let '(filteredHistory, m) := spread eventHistory m in
  let '(filteredHistory, m) :=
    match Telephone.truthy_string (Telephone.type f) with
    | Some ty =>
        Array_filter (fun event => PhoneEvent.type event = ty) filteredHistory m
    | None => (filteredHistory, m)
    end in
  let '(filteredHistory, m) :=
    match Telephone.startDate f with
    | Some d =>
        Array_filter (fun event => (d <= PhoneEvent.timestamp event)%Z)
          filteredHistory m
    | None => (filteredHistory, m)
    end in
  let '(filteredHistory, m) :=
    match Telephone.endDate f with
    | Some d =>
        Array_filter (fun event => (PhoneEvent.timestamp event <= d)%Z)
          filteredHistory m
    | None => (filteredHistory, m)
    end in
  (filteredHistory, m).

(** Every array of [m] is in [m'], with the same elements. *)
Definition kept (m m' : store) : Prop :=
  forall (a : nat) (l : list PhoneEvent.t), m !! a = Some l -> m' !! a = Some l.

End Arrays.

(** ** When the call of a handler completes *)

Module Outcome.

(** When and how the action of calling a handler completes, read off
    what the handler does: at once when it throws or returns a plain
    value; [delay] later, and as the promise does, when it returns a
    promise that settles after [delay]; never when it returns a promise
    that never settles. *)
Definition of_handler (now : instant) (c : completion returned) : promise unit :=
  match c with
  | Throw e => Settles now (Rejected e)
  | Return Plain => Settles now (Fulfilled tt)
  | Return (Thenable (After delay s)) => Settles (now + Z.of_nat delay)%Z s
  | Return (Thenable Never) => Pending
  end.

End Outcome.

(** * Properties *)

(** ** The matcher decides the language of a regular expression *)

Section Matcher.

Lemma lang_atleast_nil (r : regex) (n : nat) :
  lang r [] -> lang (AtLeast n r) [].
Proof.
  intros Hr. induction n as [|n IH].
  - apply lang_atleast_done.
  - change (lang (AtLeast (S n) r) ([] ++ [])).
    apply lang_atleast_step; [exact Hr | exact IH].
Qed.

Lemma nullable_lang (r : regex) : nullable r = true <-> lang r [].
Proof.
  split.
  - induction r as [| | c | p | r1 IH1 r2 IH2 | r1 IH1 r2 IH2 | n r IH];
      simpl; intros Hn; try discriminate.
    + constructor.
    + apply andb_true_iff in Hn as [H1 H2].
      change (lang (Seq r1 r2) ([] ++ [])). constructor; auto.
    + apply orb_true_iff in Hn as [H1 | H2].
      * apply lang_alt_l; auto.
      * apply lang_alt_r; auto.
    + apply orb_true_iff in Hn as [H0 | Hr].
      * apply Nat.eqb_eq in H0. subst n. apply lang_atleast_done.
      * apply lang_atleast_nil; auto.
  - intros Hl. remember [] as s eqn:Es.
    induction Hl as [| c | p c Hp | r1 r2 s1 s2 _ IH1 _ IH2
                     | r1 r2 s _ IH | r1 r2 s _ IH | r
                     | n r s1 s2 _ IH1 _ IH2]; simpl; try discriminate.
    + reflexivity.
    + apply app_eq_nil in Es as [-> ->]. rewrite IH1, IH2; auto.
    + rewrite IH; auto.
    + rewrite IH; auto. apply orb_true_r.
    + reflexivity.
    + apply app_eq_nil in Es as [-> ->]. rewrite IH1; auto. apply orb_true_r.
Qed.

(** With the empty word in [r], one more repetition can always be
    counted. *)
Lemma lang_atleast_succ (r : regex) (n : nat) (s : jsstring) :
  lang r [] -> lang (AtLeast n r) s -> lang (AtLeast (S n) r) s.
Proof.
  intros Hr Hs. change (lang (AtLeast (S n) r) ([] ++ s)).
  apply lang_atleast_step; assumption.
Qed.

Lemma deriv_sound (c : N) (r : regex) :
  forall s, lang (deriv c r) s -> lang r (c :: s).
Proof.
  induction r as [| | d | p | r1 IH1 r2 IH2 | r1 IH1 r2 IH2 | n r IH];
    simpl; intros s Hs.
  - inversion Hs.
  - inversion Hs.
  - destruct (N.eqb_spec c d) as [-> | _]; inversion Hs; subst. constructor.
  - destruct (p c) eqn:Hp; inversion Hs; subst. constructor; exact Hp.
  - destruct (nullable r1) eqn:Hn.
    + inversion Hs as [| | | | ? ? ? Hl | ? ? ? Hr | |]; subst.
      * inversion Hl as [| | | ? ? s1 s2 H1 H2 | | | |]; subst.
        change (lang (Seq r1 r2) ((c :: s1) ++ s2)). constructor; auto.
      * change (lang (Seq r1 r2) ([] ++ c :: s)).
        constructor; [apply nullable_lang; exact Hn | auto].
    + inversion Hs as [| | | ? ? s1 s2 H1 H2 | | | |]; subst.
      change (lang (Seq r1 r2) ((c :: s1) ++ s2)). constructor; auto.
  - inversion Hs; subst; [apply lang_alt_l | apply lang_alt_r]; auto.
  - inversion Hs as [| | | ? ? s1 s2 H1 H2 | | | |]; subst.
    change (lang (AtLeast n r) ((c :: s1) ++ s2)).
    apply lang_atleast_step; auto.
Qed.

Lemma deriv_complete (c : N) (r : regex) (w : jsstring) :
  lang r w -> forall s, w = c :: s -> lang (deriv c r) s.
Proof.
  intros Hl.
  induction Hl as [| d | p d Hp | r1 r2 s1 s2 H1 IH1 H2 IH2
                   | r1 r2 w H IH | r1 r2 w H IH | r
                   | n r s1 s2 H1 IH1 H2 IH2]; intros s Es; simpl.
  - discriminate.
  - injection Es as -> <-. rewrite N.eqb_refl. constructor.
  - injection Es as -> <-. rewrite Hp. constructor.
  - destruct s1 as [|c1 s1].
    + simpl in Es. apply nullable_lang in H1. rewrite H1.
      apply lang_alt_r. auto.
    + injection Es as -> <-.
      assert (Hd : lang (Seq (deriv c r1) r2) (s1 ++ s2))
        by (constructor; auto).
      destruct (nullable r1); [apply lang_alt_l |]; exact Hd.
  - apply lang_alt_l; auto.
  - apply lang_alt_r; auto.
  - discriminate.
  - destruct s1 as [|c1 s1].
    + simpl in Es. specialize (IH2 s Es). simpl in IH2.
      inversion IH2 as [| | | ? ? a b Ha Hb | | | |]; subst.
      constructor; [exact Ha |].
      destruct n as [|[|n]]; simpl in *; try exact Hb.
      apply lang_atleast_succ; assumption.
    + injection Es as -> <-. constructor; auto.
Qed.

Lemma deriv_lang (c : N) (r : regex) (s : jsstring) :
  lang (deriv c r) s <-> lang r (c :: s).
Proof.
  split; [apply deriv_sound | intros H; eapply deriv_complete; eauto].
Qed.

Lemma matches_lang (s : jsstring) :
  forall r, matches r s = true <-> lang r s.
Proof.
  induction s as [|c s IH]; intros r; simpl.
  - apply nullable_lang.
  - rewrite IH. apply deriv_lang.
Qed.

(** [[p]{n,}] is a run of at least [n] code units of the class. *)
Lemma lang_atleast_class (p : N -> bool) (s : jsstring) :
  forall n,
    lang (AtLeast n (Class p)) s
    <-> n <= length s /\ Forall (fun c => p c = true) s.
Proof.
  intros n. split.
  - intros Hl. remember (AtLeast n (Class p)) as r eqn:Er.
    revert n Er.
    induction Hl as [| | | | | | r | m r s1 s2 H1 _ H2 IH2];
      intros n Er; try discriminate.
    + injection Er as <- ->. split; [simpl; lia | constructor].
    + injection Er as -> ->.
      inversion H1 as [| | q c Hc | | | | |]; subst.
      destruct (IH2 (Nat.pred n) eq_refl) as [Hlen Hall].
      split; [simpl; lia | constructor; assumption].
  - revert n. induction s as [|c s IH]; intros n [Hlen Hall].
    + simpl in Hlen. assert (n = 0) as -> by lia. constructor.
    + inversion Hall as [|? ? Hc Hrest]; subst.
      change (lang (AtLeast n (Class p)) ([c] ++ s)).
      apply lang_atleast_step; [constructor; exact Hc |].
      apply IH. split; [simpl in Hlen; lia | exact Hrest].
Qed.

Lemma lang_phoneRegex (s : jsstring) :
  lang phoneRegex s <-> Spec.format Char.phone s.
Proof.
  unfold phoneRegex, Opt, Spec.format. split.
  - intros Hl.
    inversion Hl as [| | | ? ? s1 s2 H1 H2 | | | |]; subst.
    apply lang_atleast_class in H2.
    exists s2. split; [| exact H2].
    inversion H1 as [| | | | ? ? ? Hc | ? ? ? He | |]; subst.
    + inversion Hc; subst. right. reflexivity.
    + inversion He; subst. left. reflexivity.
  - intros (body & [-> | ->] & Hbody); apply lang_atleast_class in Hbody.
    + change (lang (Seq (Alt (Chr Char.plus) Eps) (AtLeast 10 (Class Char.phone)))
                ([] ++ body)).
      constructor; [apply lang_alt_r; constructor | exact Hbody].
    + change (lang (Seq (Alt (Chr Char.plus) Eps) (AtLeast 10 (Class Char.phone)))
                ([Char.plus] ++ body)).
      constructor; [apply lang_alt_l; constructor | exact Hbody].
Qed.

Lemma replace_class_is_without (p : N -> bool) (s : jsstring) :
  String_replace_class p [] s = Spec.without p s.
Proof.
  unfold String_replace_class, Spec.without.
  induction s as [|c s IH]; simpl; [reflexivity |].
  destruct (p c); simpl; rewrite IH; reflexivity.
Qed.

Lemma phoneRegex_test (s : jsstring) :
  RegExp_test_anchored phoneRegex s = true <-> Spec.format Char.phone s.
Proof.
  unfold RegExp_test_anchored. rewrite matches_lang. apply lang_phoneRegex.
Qed.

End Matcher.

(** ** validatePhoneNumber *)

(** When [+] is not in the class, the run is what follows the leading
    [+], or the whole string when there is none. *)
Lemma format_body (class : N -> bool) (s : jsstring) :
  class Char.plus = false ->
  Spec.format class s
  <-> 10 <= length (Spec.after_plus s)
      /\ Forall (fun c => class c = true) (Spec.after_plus s).
Proof.
  intros Hplus. unfold Spec.format, Spec.after_plus. split.
  - intros (body & [-> | ->] & Hlen & Hall).
    + destruct body as [|c r]; [simpl in Hlen; lia |].
      destruct (N.eqb_spec c Char.plus) as [-> | _].
      * inversion Hall; congruence.
      * simpl. auto.
    + simpl. rewrite ?N.eqb_refl. auto.
  - destruct s as [|c r]; simpl.
    + intros [Hlen _]. simpl in Hlen. lia.
    + destruct (N.eqb_spec c Char.plus) as [-> | _]; intros Hb.
      * exists r. auto.
      * exists (c :: r). auto.
Qed.

Lemma validatePhoneNumber_ok (s : jsstring) :
  Spec.format Char.phone s ->
  validatePhoneNumber s = Return (Spec.without Char.separator s).
Proof.
  intros Hf. unfold validatePhoneNumber.
  apply phoneRegex_test in Hf. rewrite Hf. simpl.
  rewrite replace_class_is_without. reflexivity.
Qed.

Lemma validatePhoneNumber_fail (s : jsstring) :
  ~ Spec.format Char.phone s ->
  validatePhoneNumber s = Throw Example.invalid_format.
Proof.
  intros Hf. unfold validatePhoneNumber.
  destruct (RegExp_test_anchored phoneRegex s) eqn:Ht; [| reflexivity].
  apply phoneRegex_test in Ht. contradiction.
Qed.

Lemma format_dec (s : jsstring) :
  Spec.format Char.phone s \/ ~ Spec.format Char.phone s.
Proof.
  destruct (RegExp_test_anchored phoneRegex s) eqn:Ht.
  - left. apply phoneRegex_test. exact Ht.
  - right. intros Hf. apply phoneRegex_test in Hf. congruence.
Qed.

Lemma validatePhoneNumber_inv (s n : jsstring) :
  validatePhoneNumber s = Return n ->
  Spec.format Char.phone s /\ n = Spec.without Char.separator s.
Proof.
  intros Hv. destruct (format_dec s) as [Hf | Hf].
  - rewrite (validatePhoneNumber_ok s Hf) in Hv. injection Hv as <-. auto.
  - rewrite (validatePhoneNumber_fail s Hf) in Hv. discriminate.
Qed.

(** C1, as amended: validation succeeds exactly on the strings that are,
    in their entirety, an optional leading [+] followed by at least 10
    code units each a digit, a white-space character of the class [\s]
    or a hyphen; it then returns the string without its white space and
    hyphens, and on every other string it throws the
    [PhoneNumberError] "Invalid phone number format". *)
Theorem validatePhoneNumber_spec (s : jsstring) :
  (Spec.format Char.phone s
   /\ validatePhoneNumber s = Return (Spec.without Char.separator s))
  \/ (~ Spec.format Char.phone s
      /\ validatePhoneNumber s
         = Throw (PhoneNumberError (js "Invalid phone number format"))).
Proof.
  destruct (format_dec s) as [Hf | Hf].
  - left. split; [exact Hf | apply validatePhoneNumber_ok; exact Hf].
  - right. split; [exact Hf | apply validatePhoneNumber_fail; exact Hf].
Qed.

(** C1, as stated, fails: a string with a TAB among its digits is not
    "digits, spaces and hyphens", yet validation accepts it. *)
Lemma validatePhoneNumber_accepts_tab :
  validatePhoneNumber Example.tabbed = Return (js "1234567890")
  /\ ~ Spec.format Spec.digit_space_hyphen Example.tabbed.
Proof.
  split; [reflexivity |].
  intros Hf. apply format_body in Hf; [| reflexivity].
  destruct Hf as [_ Hall]. vm_compute in Hall.
  repeat match goal with
         | H : Forall _ (_ :: _) |- _ => inversion H; clear H; subst
         end.
  discriminate.
Qed.

(** ** Normalisation *)

Lemma digit_not_separator (c : N) :
  Char.digit c = true -> Char.separator c = false.
Proof.
  unfold Char.digit, Char.separator, Char.whitespace, Char.hyphen.
  rewrite andb_true_iff, !N.leb_le.
  rewrite !orb_false_iff, !andb_false_iff, !N.eqb_neq, !N.leb_gt. lia.
Qed.

Lemma phone_not_separator (c : N) :
  Char.phone c = true -> Char.separator c = false -> Char.digit c = true.
Proof.
  unfold Char.phone, Char.separator.
  destruct (Char.digit c); [reflexivity |]. simpl. congruence.
Qed.

Lemma digit_phone (c : N) : Char.digit c = true -> Char.phone c = true.
Proof. unfold Char.phone. intros ->. reflexivity. Qed.

Lemma without_idempotent (p : N -> bool) (s : jsstring) :
  Spec.without p (Spec.without p s) = Spec.without p s.
Proof.
  unfold Spec.without. induction s as [|c s IH]; simpl; [reflexivity |].
  destruct (p c) eqn:Hc; simpl; [exact IH |].
  rewrite Hc. simpl. rewrite IH. reflexivity.
Qed.

(** Of a run of the class [[\d\s-]], normalisation keeps the digits. *)
Lemma without_separator_digits (body : jsstring) :
  Forall (fun c => Char.phone c = true) body ->
  Spec.without Char.separator body = List.filter Char.digit body
  /\ Forall (fun c => Char.digit c = true) (Spec.without Char.separator body).
Proof.
  unfold Spec.without. induction 1 as [|c body Hc _ [IHeq IHall]]; simpl.
  - split; [reflexivity | constructor].
  - destruct (Char.separator c) eqn:Hs; simpl.
    + destruct (Char.digit c) eqn:Hd.
      * apply digit_not_separator in Hd. congruence.
      * auto.
    + rewrite (phone_not_separator c Hc Hs). rewrite IHeq.
      split; [reflexivity |].
      constructor; [apply phone_not_separator; assumption |].
      rewrite <- IHeq. exact IHall.
Qed.

(** What normalisation leaves of an accepted string: its leading [+], if
    any, and its digits. *)
Lemma after_plus_without (s : jsstring) :
  Spec.format Char.phone s ->
  Spec.after_plus (Spec.without Char.separator s)
  = List.filter Char.digit (Spec.after_plus s)
  /\ List.filter Char.digit (Spec.after_plus s) = List.filter Char.digit s.
Proof.
  intros Hf. apply format_body in Hf; [| reflexivity].
  destruct Hf as [Hlen Hall].
  destruct s as [|c r]; [simpl in Hlen; lia |].
  unfold Spec.after_plus in *.
  destruct (N.eqb_spec c Char.plus) as [-> | Hne].
  - change (Spec.without Char.separator (Char.plus :: r))
      with (Char.plus :: Spec.without Char.separator r).
    rewrite ?N.eqb_refl.
    split; [apply without_separator_digits; exact Hall | reflexivity].
  - destruct (without_separator_digits (c :: r) Hall) as [Heq Hdig].
    split; [| reflexivity].
    rewrite Heq in *.
    destruct (List.filter Char.digit (c :: r)) as [|d ds]; [reflexivity |].
    destruct (N.eqb_spec d Char.plus) as [-> | _]; [| reflexivity].
    inversion Hdig; subst. discriminate.
Qed.

(** C8, as amended: for every string [s] that validation accepts with
    result [n], removing white space and hyphens from [n] again returns
    [n] unchanged; validating [n] returns [n] when [s] has at least 10
    digits, and fails with the format error when it has fewer. *)
Theorem normalization_idempotent (s n : jsstring) :
  validatePhoneNumber s = Return n ->
  String_replace_class Char.separator [] n = n
  /\ (10 <= length (List.filter Char.digit s) ->
      validatePhoneNumber n = Return n)
  /\ (length (List.filter Char.digit s) < 10 ->
      validatePhoneNumber n
      = Throw (PhoneNumberError (js "Invalid phone number format"))).
Proof.
  intros Hv. apply validatePhoneNumber_inv in Hv as [Hf ->].
  destruct (after_plus_without s Hf) as [Hbody Hdigits].
  assert (Hall : Forall (fun c => Char.phone c = true)
                   (Spec.after_plus (Spec.without Char.separator s))).
  { rewrite Hbody. apply Forall_forall. intros c Hc.
    apply list_elem_of_In, filter_In in Hc as [_ Hc]. apply digit_phone, Hc. }
  rewrite replace_class_is_without, without_idempotent.
  split; [reflexivity |]. split; intros Hlen.
  - rewrite validatePhoneNumber_ok, without_idempotent; [reflexivity |].
    apply format_body; [reflexivity |]. split; [| exact Hall].
    rewrite Hbody, Hdigits. exact Hlen.
  - apply validatePhoneNumber_fail. intros Hf'.
    apply format_body in Hf' as [Hlen' _]; [| reflexivity].
    rewrite Hbody, Hdigits in Hlen'. lia.
Qed.

Lemma normalization_idempotent_witness :
  validatePhoneNumber (js "+1-234-567-8900") = Return (js "+12345678900")
  /\ validatePhoneNumber (js "+12345678900") = Return (js "+12345678900").
Proof.
  split; [reflexivity |].
  apply (normalization_idempotent (js "+1-234-567-8900") (js "+12345678900"));
    [reflexivity | vm_compute; lia].
Defined.

(** C8, as stated, fails: ten hyphens are accepted and normalise to the
    empty string, which validation rejects. *)
Lemma normalized_number_can_be_invalid :
  validatePhoneNumber Example.ten_hyphens = Return []
  /\ validatePhoneNumber []
     = Throw (PhoneNumberError (js "Invalid phone number format")).
Proof. split; reflexivity. Qed.

(** ** Numbers without digits *)

Lemma space_or_hyphen_separator (c : N) :
  c = Char.space \/ c = Char.hyphen ->
  Char.separator c = true /\ Char.phone c = true /\ Char.digit c = false
  /\ c <> Char.plus.
Proof. intros [-> | ->]; repeat split; discriminate. Qed.

Lemma without_all (p : N -> bool) (s : jsstring) :
  Forall (fun c => p c = true) s -> Spec.without p s = [].
Proof.
  unfold Spec.without. induction 1 as [|c s Hc _ IH]; simpl; [reflexivity |].
  rewrite Hc. exact IH.
Qed.

(** C10: every string of at least 10 spaces and hyphens has no digit and
    is accepted by validation; [addPhoneNumber] succeeds on it, returns
    the empty string and stores the empty string in the number set. *)
Theorem digitless_number_is_stored (s : jsstring) (now : instant) (tel : Telephone.t) :
  10 <= length s ->
  Forall (fun c => c = Char.space \/ c = Char.hyphen) s ->
  Forall (fun c => Char.digit c = false) s
  /\ validatePhoneNumber s = Return []
  /\ exists tel' tr,
       Telephone.addPhoneNumber now s tel = (tel', tr, Return [])
       /\ [] ∈ Telephone.phoneNumbers tel'.
Proof.
  intros Hlen Hall.
  assert (Hv : validatePhoneNumber s = Return []).
  { rewrite validatePhoneNumber_ok.
    - rewrite without_all; [reflexivity |].
      eapply Forall_impl; [exact Hall |].
      intros c Hc. apply space_or_hyphen_separator, Hc.
    - exists s. split; [left; reflexivity |]. split; [exact Hlen |].
      eapply Forall_impl; [exact Hall |].
      intros c Hc. apply space_or_hyphen_separator, Hc. }
  split; [| split; [exact Hv |]].
  - eapply Forall_impl; [exact Hall |].
    intros c Hc. apply space_or_hyphen_separator, Hc.
  - unfold Telephone.addPhoneNumber. rewrite Hv.
    eexists _, _. split; [reflexivity |].
    simpl. apply elem_of_union_r, elem_of_singleton. reflexivity.
Qed.

Lemma digitless_number_is_stored_witness :
  validatePhoneNumber Example.ten_hyphens = Return []
  /\ exists tel' tr,
       Telephone.addPhoneNumber 0 Example.ten_hyphens (Telephone.constructor [])
       = (tel', tr, Return [])
       /\ [] ∈ Telephone.phoneNumbers tel'.
Proof.
  destruct (digitless_number_is_stored Example.ten_hyphens 0 (Telephone.constructor []))
    as (_ & Hv & Hs).
  - vm_compute. lia.
  - vm_compute. repeat (constructor; [right; reflexivity |]). constructor.
  - split; assumption.
Defined.

(** ** Invalid numbers *)

(** C6, as amended: for every string that fails the format constraint,
    [addPhoneNumber] and [removePhoneNumber] throw the
    [PhoneNumberError] "Invalid phone number format" to their caller,
    and [dialPhoneNumber], an asynchronous method, throws nothing and
    returns a promise already rejected with that error at the instant of
    the call; in the three cases the number set, the observer set and the
    event history are unchanged. *)
Theorem invalid_number_changes_nothing
    (H : heap) (now : instant) (s : jsstring) (tel : Telephone.t) :
  ~ Spec.format Char.phone s ->
  let error := PhoneNumberError (js "Invalid phone number format") in
  Telephone.addPhoneNumber now s tel
  = (tel,
     [(now, ConsoleError (js "Failed to add phone number: Invalid phone number format"))],
     Throw error)
  /\ Telephone.removePhoneNumber now s tel
     = (tel,
        [(now, ConsoleError (js "Failed to remove phone number: Invalid phone number format"))],
        Throw error)
  /\ Telephone.dialPhoneNumber H now s tel
     = (tel,
        [(now, ConsoleError (js "Failed to dial number: Invalid phone number format"))],
        Return (Settles now (Rejected error))).
Proof.
  intros Hf error.
  unfold Telephone.addPhoneNumber, Telephone.removePhoneNumber,
    Telephone.dialPhoneNumber, Telephone.dialPhoneNumber_body.
  rewrite (validatePhoneNumber_fail s Hf).
  repeat split; reflexivity.
Qed.

Lemma invalid_number_changes_nothing_witness :
  Telephone.addPhoneNumber 0 (js "invalid") Example.one_added
  = (Example.one_added,
     [(0%Z, ConsoleError (js "Failed to add phone number: Invalid phone number format"))],
     Throw Example.invalid_format).
Proof.
  apply (invalid_number_changes_nothing Example.H_rejecting 0 (js "invalid")
           Example.one_added).
  intros Hf. apply format_body in Hf as [Hlen _]; [| reflexivity].
  vm_compute in Hlen. lia.
Defined.

(** C6, as stated, fails: [dialPhoneNumber] does not raise the error
    synchronously; on an invalid number the call returns normally, with
    a rejected promise. *)
Lemma dialPhoneNumber_invalid_does_not_throw :
  (Telephone.dialPhoneNumber Example.H_rejecting 0 (js "invalid")
     (Telephone.constructor [])).2
  = Return (Settles 0%Z (Rejected Example.invalid_format))
  /\ (Telephone.dialPhoneNumber Example.H_rejecting 0 (js "invalid")
        (Telephone.constructor [])).2
     <> Throw Example.invalid_format.
Proof. split; [reflexivity | discriminate]. Qed.

(** ** getEventHistory *)

Lemma filter_all {A : Type} (P : A -> Prop) `{!forall x, Decision (P x)}
    (l : list A) :
  (forall x, P x) -> filter P l = l.
Proof.
  intros HP. induction l as [|x l IH]; [reflexivity |].
  rewrite filter_cons_True by apply HP. rewrite IH. reflexivity.
Qed.

(** For every filter, the empty string as a type included:
    [if (filter.type)] takes an empty string for no type. *)
Lemma getEventHistory_truthy (f : Telephone.filter_options) (tel : Telephone.t) :
  Telephone.getEventHistory f tel
  = filter (Spec.satisfies_truthy f) (Telephone.eventHistory tel).
Proof.
  unfold Telephone.getEventHistory, Telephone.truthy_string.
  destruct f as [[[|c ty]|] [d1|] [d2|]]; simpl;
    rewrite ?list_filter_filter;
    first [ apply list_filter_iff | symmetry; apply filter_all ];
    intros event; unfold Spec.satisfies_truthy; simpl; tauto.
Qed.

(** With [{ type: '' }] the whole log is returned. *)
Lemma getEventHistory_empty_type :
  Telephone.getEventHistory Example.empty_type Example.one_added
  = Telephone.eventHistory Example.one_added
  /\ filter (Spec.satisfies Example.empty_type)
       (Telephone.eventHistory Example.one_added) = []
  /\ Telephone.eventHistory Example.one_added <> [].
Proof. split; [reflexivity | split; [reflexivity | discriminate]]. Qed.

Section ArrayStore.

Implicit Types (m : Arrays.store) (l : list PhoneEvent.t).

Lemma alloc_spec l m a' m' :
  Arrays.alloc l m = (a', m') ->
  m !! a' = None /\ m' !! a' = Some l /\ Arrays.kept m m'.
Proof.
  unfold Arrays.alloc. intros E. injection E as <- <-.
  assert (Hfresh : m !! base.fresh (dom m) = None)
    by (apply not_elem_of_dom, is_fresh).
  split; [exact Hfresh |]. split; [apply lookup_insert_eq |].
  intros a l' Ha. rewrite lookup_insert_ne; [exact Ha |]. congruence.
Qed.

(** One step of [getEventHistory]: the array in hand is left as it is or
    filtered into a new array; no array of the caller is touched. *)
Lemma filter_step_spec (P : PhoneEvent.t -> Prop) `{!forall x, Decision (P x)}
    (m0 m : Arrays.store) (a : nat) l (given : bool) a' m' :
  Arrays.kept m0 m -> m0 !! a = None -> m !! a = Some l ->
  (if given then Arrays.Array_filter P a m else (a, m)) = (a', m') ->
  Arrays.kept m0 m' /\ m0 !! a' = None
  /\ m' !! a' = Some (if given then filter P l else l).
Proof.
  intros Hk Hnew Ha E. destruct given.
  - unfold Arrays.Array_filter in E. rewrite Ha in E. simpl in E.
    apply alloc_spec in E as (Hfresh & Hget & Hk').
    split; [intros b x Hb; apply Hk', Hk, Hb |]. split; [| exact Hget].
    destruct (m0 !! a') as [x |] eqn:Hm0; [| reflexivity].
    apply Hk in Hm0. congruence.
  - injection E as <- <-. auto.
Qed.

Lemma getEventHistory_arrays (f : Telephone.filter_options) (tel : Telephone.t)
    m (log : nat) :
  m !! log = Some (Telephone.eventHistory tel) ->
  Arrays.kept m (Arrays.getEventHistory f log m).2
  /\ m !! (Arrays.getEventHistory f log m).1 = None
  /\ (Arrays.getEventHistory f log m).2 !! (Arrays.getEventHistory f log m).1
     = Some (Telephone.getEventHistory f tel).
Proof.
  intros Hlog. unfold Arrays.getEventHistory, Telephone.getEventHistory.
  destruct (Arrays.spread log m) as [a0 m0] eqn:E0.
  unfold Arrays.spread in E0. rewrite Hlog in E0. simpl in E0.
  apply alloc_spec in E0 as (Hn0 & Hg0 & Hk0).
  destruct (match Telephone.truthy_string (Telephone.type f) with
            | Some ty => Arrays.Array_filter _ a0 m0
            | None => (a0, m0)
            end) as [a1 m1] eqn:E1.
  assert (H1 : Arrays.kept m m1 /\ m !! a1 = None
               /\ m1 !! a1
                  = Some match Telephone.truthy_string (Telephone.type f) with
                         | Some ty => filter (fun event => PhoneEvent.type event = ty)
                                        (Telephone.eventHistory tel)
                         | None => Telephone.eventHistory tel
                         end).
  { destruct (Telephone.truthy_string (Telephone.type f)) as [ty |].
    - apply (filter_step_spec _ m m0 a0 _ true a1 m1 Hk0 Hn0 Hg0 E1).
    - apply (filter_step_spec (fun _ => True) m m0 a0 _ false a1 m1 Hk0 Hn0 Hg0 E1). }
  destruct H1 as (Hk1 & Hn1 & Hg1).
  set (l1 := match Telephone.truthy_string (Telephone.type f) with
             | Some ty => filter (fun event => PhoneEvent.type event = ty)
                            (Telephone.eventHistory tel)
             | None => Telephone.eventHistory tel
             end) in *.
  destruct (match Telephone.startDate f with
            | Some d => Arrays.Array_filter _ a1 m1
            | None => (a1, m1)
            end) as [a2 m2] eqn:E2.
  assert (H2 : Arrays.kept m m2 /\ m !! a2 = None
               /\ m2 !! a2
                  = Some match Telephone.startDate f with
                         | Some d =>
                             filter (fun event => (d <= PhoneEvent.timestamp event)%Z) l1
                         | None => l1
                         end).
  { destruct (Telephone.startDate f) as [d |].
    - apply (filter_step_spec _ m m1 a1 _ true a2 m2 Hk1 Hn1 Hg1 E2).
    - apply (filter_step_spec (fun _ => True) m m1 a1 _ false a2 m2 Hk1 Hn1 Hg1 E2). }
  destruct H2 as (Hk2 & Hn2 & Hg2).
  destruct (match Telephone.endDate f with
            | Some d => Arrays.Array_filter _ a2 m2
            | None => (a2, m2)
            end) as [a3 m3] eqn:E3.
  simpl. destruct (Telephone.endDate f) as [d |].
  - apply (filter_step_spec _ m m2 a2 _ true a3 m3 Hk2 Hn2 Hg2 E3).
  - apply (filter_step_spec (fun _ => True) m m2 a2 _ false a3 m3 Hk2 Hn2 Hg2 E3).
Qed.

End ArrayStore.

(** C7: for every filter whose type, when given, is an event type and so
    not the empty string, [getEventHistory] returns exactly the events of
    the log that satisfy every option given (type equal to [filter.type],
    timestamp at or after [startDate], at or before [endDate]; an option
    not given imposes nothing), in the order of the log, oldest first.  It
    returns them in a new array and changes no array there was, the log
    among them. *)
Theorem getEventHistory_spec (f : Telephone.filter_options) (tel : Telephone.t)
    (m : Arrays.store) (log : nat) :
  Telephone.type f <> Some [] ->
  m !! log = Some (Telephone.eventHistory tel) ->
  let result := (Arrays.getEventHistory f log m).1 in
  let m' := (Arrays.getEventHistory f log m).2 in
  m' !! result = Some (filter (Spec.satisfies f) (Telephone.eventHistory tel))
  /\ Telephone.getEventHistory f tel
     = filter (Spec.satisfies f) (Telephone.eventHistory tel)
  /\ sublist (filter (Spec.satisfies f) (Telephone.eventHistory tel))
             (Telephone.eventHistory tel)
  /\ m' !! log = Some (Telephone.eventHistory tel)
  /\ result <> log
  /\ m !! result = None
  /\ Arrays.kept m m'.
Proof.
  intros Hty Hlog result m'.
  assert (Heq : Telephone.getEventHistory f tel
                = filter (Spec.satisfies f) (Telephone.eventHistory tel)).
  { rewrite getEventHistory_truthy. apply list_filter_iff. intros event.
    unfold Spec.satisfies, Spec.satisfies_truthy.
    destruct (Telephone.type f) as [[|c ty] |]; [congruence | tauto | tauto]. }
  destruct (getEventHistory_arrays f tel m log Hlog) as (Hk & Hnew & Hget).
  fold result in Hnew, Hget. fold m' in Hk, Hget.
  rewrite Heq in Hget.
  repeat split; try assumption.
  - apply sublist_filter.
  - apply Hk, Hlog.
  - intros E. rewrite E in Hnew. congruence.
Qed.

Lemma getEventHistory_spec_witness :
  Telephone.getEventHistory Shape.dial_only (telephone Example.registered)
  = filter (Spec.satisfies Shape.dial_only)
      (Telephone.eventHistory (telephone Example.registered)).
Proof.
  apply (getEventHistory_spec Shape.dial_only (telephone Example.registered)
           {[ 0 := Telephone.eventHistory (telephone Example.registered) ]} 0).
  - discriminate.
  - apply lookup_singleton_eq.
Defined.

(** ** The event history *)

Section History.

Local Arguments Telephone.addToHistory : simpl never.

Implicit Types (tel : Telephone.t) (event : PhoneEvent.t) (w : World).

Lemma tail_drop_app (l : list PhoneEvent.t) event :
  forall k, k <= length l ->
    tail (drop k l ++ [event]) = drop (S k) (l ++ [event]).
Proof.
  induction l as [|x l IH]; intros k Hk.
  - simpl in Hk. assert (k = 0) as -> by lia. reflexivity.
  - destruct k as [|k].
    + reflexivity.
    + simpl in Hk. change (drop (S k) (x :: l)) with (drop k l).
      change (drop (S (S k)) ((x :: l) ++ [event]))
        with (drop (S k) (l ++ [event])).
      apply IH. lia.
Qed.

(** One [addToHistory] on a log that holds the most recent events
    leaves the most recent events. *)
Lemma addToHistory_most_recent tel event (n : nat) (past : list PhoneEvent.t) :
  Telephone.maxHistorySize tel = n ->
  Telephone.eventHistory tel = Spec.most_recent n past ->
  Telephone.eventHistory (Telephone.addToHistory event tel)
  = Spec.most_recent n (past ++ [event]).
Proof.
  unfold Telephone.addToHistory, Spec.most_recent. simpl.
  intros <- ->. set (n := Telephone.maxHistorySize tel).
  rewrite !length_app, length_drop. simpl.
  destruct (Nat.ltb_spec n (length past - (length past - n) + 1)) as [Hlt | Hge].
  - rewrite tail_drop_app by lia. f_equal. lia.
  - replace (length past - n) with 0 by lia.
    replace (length past + 1 - n) with 0 by lia. reflexivity.
Qed.

Lemma addToHistory_fields tel event :
  Telephone.maxHistorySize (Telephone.addToHistory event tel)
  = Telephone.maxHistorySize tel
  /\ Telephone.phoneNumbers (Telephone.addToHistory event tel)
     = Telephone.phoneNumbers tel
  /\ Telephone.observers (Telephone.addToHistory event tel)
     = Telephone.observers tel.
Proof. repeat split. Qed.

(** What [dialPhoneNumber] leaves of the registry does not depend on
    the observers. *)
Lemma dialPhoneNumber_telephone (H : heap) (now : instant) (raw : jsstring) tel :
  (Telephone.dialPhoneNumber H now raw tel).1.1
  = match validatePhoneNumber raw with
    | Return n =>
        if decide (n ∈ Telephone.phoneNumbers tel)
        then Telephone.addToHistory (PhoneEvent.new (js "dial") n now) tel
        else tel
    | Throw _ => tel
    end.
Proof.
  unfold Telephone.dialPhoneNumber, Telephone.dialPhoneNumber_body.
  destruct (validatePhoneNumber raw) as [n | error].
  - destruct (decide (n ∈ Telephone.phoneNumbers tel)) as [Hin | Hout];
      [| reflexivity].
    destruct (Telephone.notifyObservers H now n _) as [tr [t [v | error] |]];
      try reflexivity.
    destruct (catch_log_rethrow t _ error) as [tr' e']; reflexivity.
- destruct (catch_log_rethrow now _ error) as [tr' e']; reflexivity.
Qed.

(** The two ways an operation ends: nothing appended, or one event. *)
Ltac none_appended :=
  simpl; rewrite app_nil_r; auto.

Ltac one_appended Hpast :=
  split; [reflexivity |];
  apply addToHistory_most_recent; [reflexivity | exact Hpast].

(** Every operation keeps the capacity and appends to the log, by
    [addToHistory], the events the specification names. *)
Lemma step_history (now : instant) (op : operation) w (past : list PhoneEvent.t) :
  Telephone.eventHistory (telephone w)
  = Spec.most_recent (Telephone.maxHistorySize (telephone w)) past ->
  Telephone.maxHistorySize (telephone (step now op w))
  = Telephone.maxHistorySize (telephone w)
  /\ Telephone.eventHistory (telephone (step now op w))
     = Spec.most_recent (Telephone.maxHistorySize (telephone w))
         (past ++ Spec.appended now op w).
Proof.
  intros Hpast. destruct w as [H tel]. simpl in Hpast.
  destruct op as [raw | raw | raw | r | r | f | r ty h];
    unfold step, Spec.appended; cbn [store telephone].
  - unfold Telephone.addPhoneNumber.
    destruct (validatePhoneNumber raw) as [n | error]; simpl.
    + one_appended Hpast.
    + destruct (catch_log_rethrow now _ error) as [tr c]. none_appended.
  - unfold Telephone.removePhoneNumber.
    destruct (validatePhoneNumber raw) as [n | error]; simpl.
    + destruct (decide (n ∈ Telephone.phoneNumbers tel)) as [Hin | Hout].
      * rewrite bool_decide_eq_true_2 by exact Hin. one_appended Hpast.
      * rewrite bool_decide_eq_false_2 by exact Hout. none_appended.
    + destruct (catch_log_rethrow now _ error) as [tr c]. none_appended.
  - rewrite dialPhoneNumber_telephone.
    destruct (validatePhoneNumber raw) as [n | error]; simpl.
    + destruct (decide (n ∈ Telephone.phoneNumbers tel)) as [Hin | Hout].
      * rewrite bool_decide_eq_true_2 by exact Hin. one_appended Hpast.
      * rewrite bool_decide_eq_false_2 by exact Hout. none_appended.
    + none_appended.
  - unfold Telephone.addObserver. simpl. one_appended Hpast.
  - unfold Telephone.removeObserver, Telephone.Set_delete.
    destruct (bool_decide (r ∈ Telephone.observers tel)); simpl.
    + one_appended Hpast.
    + none_appended.
  - none_appended.
  - none_appended.
Qed.

Lemma run_history (ops : list (instant * operation)) :
  forall w (past : list PhoneEvent.t),
    Telephone.eventHistory (telephone w)
    = Spec.most_recent (Telephone.maxHistorySize (telephone w)) past ->
    Telephone.maxHistorySize (telephone (run ops w))
    = Telephone.maxHistorySize (telephone w)
    /\ Telephone.eventHistory (telephone (run ops w))
       = Spec.most_recent (Telephone.maxHistorySize (telephone w))
           (past ++ Spec.all_appended ops w).
Proof.
  induction ops as [|[now op] ops IH]; intros w past Hpast; simpl.
  - rewrite app_nil_r. auto.
  - destruct (step_history now op w past Hpast) as [Hcap Hlog].
    rewrite <- Hcap in Hlog.
    destruct (IH _ _ Hlog) as [Hcap' Hlog'].
    rewrite Hcap in Hcap', Hlog'. rewrite <- app_assoc in Hlog'. auto.
Qed.

Lemma most_recent_length {A : Type} (n : nat) (l : list A) :
  length (Spec.most_recent n l) = Nat.min n (length l).
Proof. unfold Spec.most_recent. rewrite length_drop. lia. Qed.

End History.

(** C2: after any sequence of operations on a new registry the event
    history holds at most 100 events; it is the most recent 100 of all
    the events appended so far, in the order they were appended, so
    exactly 100 of them once more than 100 were appended; and an append
    to a full history drops the single oldest entry and adds the new one
    at the end. *)
Theorem history_is_bounded_fifo (H : heap) (ops : list (instant * operation)) :
  let log := Telephone.eventHistory (telephone (run ops (fresh H))) in
  let all := Spec.all_appended ops (fresh H) in
  length log <= 100
  /\ log = Spec.most_recent 100 all
  /\ (100 < length all -> length log = 100)
  /\ forall event,
       length log = 100 ->
       Telephone.eventHistory
         (Telephone.addToHistory event (telephone (run ops (fresh H))))
       = tail log ++ [event].
Proof.
  intros log all.
  destruct (run_history ops (fresh H) []) as [Hcap Hlog]; [reflexivity |].
  change (Telephone.maxHistorySize (telephone (fresh H))) with 100 in Hcap, Hlog.
  simpl in Hlog. fold all in Hlog. fold log in Hlog.
  assert (Hlen : length log = Nat.min 100 (length all))
    by (rewrite Hlog; apply most_recent_length).
  split; [lia |]. split; [exact Hlog |]. split; [lia |].
  intros event Hfull. unfold Telephone.addToHistory. simpl.
  rewrite Hcap. fold log. rewrite length_app, Hfull. simpl.
  clearbody log. destruct log as [|oldest rest]; [discriminate | reflexivity].
Qed.

(** ** The constructor *)

(** C9, as amended: the constructor takes no configuration parameter;
    whatever arguments it is called with, the registry starts empty with
    a history capacity of 100, and no operation changes the capacity. *)
Theorem constructor_capacity (args : list jsval) :
  Telephone.constructor args = Telephone.mk ∅ [] [] 100
  /\ forall (H : heap) (ops : list (instant * operation)),
       Telephone.maxHistorySize
         (telephone (run ops (mkWorld H (Telephone.constructor args))))
       = 100.
Proof.
  split; [reflexivity |]. intros H ops.
  destruct (run_history ops (mkWorld H (Telephone.constructor args)) [])
    as [Hcap _]; [reflexivity | exact Hcap].
Qed.

(** C9, as stated, fails: a capacity passed to the constructor is not
    taken as the capacity. *)
Lemma constructor_ignores_capacity :
  Telephone.maxHistorySize (Telephone.constructor [JNum 5]) <> 5.
Proof. simpl. lia. Qed.

(** ** Promise.all and notify *)

Section Notify.

Implicit Types (o : PhoneNumberObserver.t) (ps : list (promise unit)).

(** Promises that are fulfilled when the wait begins. *)
Definition done_at (now : instant) ps : Prop :=
  Forall (fun p => p = Settles now (Fulfilled tt)) ps.

Lemma first_rejection_done now ps qs :
  done_at now ps -> first_rejection (ps ++ qs) = first_rejection qs.
Proof. induction 1 as [|p ps -> _ IH]; simpl; auto. Qed.

Lemma all_settled_done now ps :
  done_at now ps -> all_settled now ps = Some now.
Proof.
  induction 1 as [|p ps -> _ IH]; simpl; [reflexivity |].
  rewrite IH. simpl. f_equal. lia.
Qed.

Lemma all_settled_done_then now ps t s :
  done_at now ps -> (now <= t)%Z ->
  all_settled now (ps ++ [Settles t s]) = Some t.
Proof.
  intros Hd Ht. induction Hd as [|p ps -> _ IH]; simpl.
  - f_equal. lia.
  - rewrite IH. simpl. f_equal. lia.
Qed.

Lemma all_settled_done_pending now ps :
  done_at now ps -> all_settled now (ps ++ [Pending]) = None.
Proof.
  induction 1 as [|p ps -> _ IH]; simpl; [reflexivity |].
  rewrite IH. reflexivity.
Qed.

Lemma Promise_all_done now ps :
  done_at now ps -> Promise_all now ps = Settles now (Fulfilled tt).
Proof.
  intros Hd. unfold Promise_all.
  rewrite <- (app_nil_r ps) at 1.
  rewrite (first_rejection_done now ps [] Hd). simpl.
  rewrite (all_settled_done now ps Hd). reflexivity.
Qed.

(** Behind promises that are already fulfilled, [Promise.all] settles
    as the one promise that is left does. *)
Lemma Promise_all_done_then now ps (q : promise unit) :
  done_at now ps ->
  (forall t s, q = Settles t s -> (now <= t)%Z) ->
  Promise_all now (ps ++ [q]) = q.
Proof.
  intros Hd Hq. unfold Promise_all.
  rewrite (first_rejection_done now ps [q] Hd).
  destruct q as [t [[] | e] |]; simpl.
  - rewrite (all_settled_done_then now ps t _ Hd (Hq _ _ eq_refl)). reflexivity.
  - reflexivity.
  - rewrite (all_settled_done_pending now ps Hd). reflexivity.
Qed.

Lemma Promise_resolve_later now (v : returned) t s :
  Promise_resolve now v = Settles t s -> (now <= t)%Z.
Proof.
  destruct v as [|[d s' |]]; simpl; intros E; inversion E; subst; lia.
Qed.

Lemma builtin_launched_done o phoneNumber now :
  done_at now (map PhoneNumberObserver.completes
                 (Spec.builtin_launched o phoneNumber now)).
Proof.
  unfold done_at, Spec.builtin_launched. rewrite map_map. simpl.
  apply Forall_forall. intros p Hp.
  apply list_elem_of_In, in_map_iff in Hp as (a & <- & _). reflexivity.
Qed.

(** [notify], case by case on the handler registered for the event
    type. *)
Lemma notify_cases o phoneNumber (eventType : option jsstring) now :
  let ty := default (js "dial") eventType in
  let builtin := Spec.builtin_launched o phoneNumber now in
  PhoneNumberObserver.notify o phoneNumber eventType now
  = match PhoneNumberObserver.customHandlers o !! ty with
    | None => (builtin, Settles now (Fulfilled tt))
    | Some h =>
        let call := HandlerCall ty phoneNumber in
        match h phoneNumber with
        | Throw e =>
            (builtin ++ [PhoneNumberObserver.Launched call (Settles now (Rejected e))],
             Settles now (Rejected e))
        | Return v =>
            (builtin ++ [PhoneNumberObserver.Launched call (Promise_resolve now v)],
             Promise_resolve now v)
        end
    end.
Proof.
  intros ty builtin.
  assert (Hb : (if decide (js "simple" ∈ PhoneNumberObserver.types o)
                then [PhoneNumberObserver.Launched (ConsoleLog phoneNumber)
                        (Promise_resolve now Plain)]
                else [])
               ++ (if decide (js "detailed" ∈ PhoneNumberObserver.types o)
                   then [PhoneNumberObserver.Launched
                           (ConsoleLog (js "Now Dialing " ++ phoneNumber ++ js "..."))
                           (Promise_resolve now Plain)]
                   else [])
               = builtin).
  { unfold builtin, Spec.builtin_launched, Spec.builtin_actions.
    do 2 case_decide; do 2 case_bool_decide;
      first [reflexivity | contradiction]. }
  unfold PhoneNumberObserver.notify. cbv zeta. fold ty.
  destruct (PhoneNumberObserver.customHandlers o !! ty) as [h |].
  - destruct (h phoneNumber) as [v | e].
    + rewrite !(app_assoc (A := PhoneNumberObserver.launched)), Hb. f_equal.
      rewrite map_app. simpl.
      apply Promise_all_done_then; [apply builtin_launched_done |].
      apply Promise_resolve_later.
    + rewrite !(app_assoc (A := PhoneNumberObserver.launched)), Hb. reflexivity.
  - rewrite Hb. f_equal.
    apply Promise_all_done, builtin_launched_done.
Qed.

Lemma builtin_launched_actions o phoneNumber now :
  map PhoneNumberObserver.action (Spec.builtin_launched o phoneNumber now)
  = Spec.builtin_actions o phoneNumber.
Proof.
  unfold Spec.builtin_launched. rewrite map_map. simpl. apply map_id.
Qed.

Lemma builtin_actions_builtin o phoneNumber :
  List.filter Spec.is_builtin (Spec.builtin_actions o phoneNumber)
  = Spec.builtin_actions o phoneNumber.
Proof.
  unfold Spec.builtin_actions. do 2 case_bool_decide; reflexivity.
Qed.

End Notify.

(** What [notify] starts is the built-in actions of the tags followed by
    at most one action that is not built in, and its promise settles as
    that last action does. *)
Lemma notify_shape (o : PhoneNumberObserver.t) (phoneNumber : jsstring)
    (eventType : option jsstring) (now : instant) :
  let started := (PhoneNumberObserver.notify o phoneNumber eventType now).1 in
  let p := (PhoneNumberObserver.notify o phoneNumber eventType now).2 in
  (started = Spec.builtin_launched o phoneNumber now
   /\ p = Settles now (Fulfilled tt))
  \/ exists call q,
       started = Spec.builtin_launched o phoneNumber now
                 ++ [PhoneNumberObserver.Launched call q]
       /\ Spec.is_builtin call = false
       /\ p = q
       /\ forall t s, q = Settles t s -> (now <= t)%Z.
Proof.
  intros started p. subst started p. rewrite notify_cases.
  destruct (PhoneNumberObserver.customHandlers o !! default (js "dial") eventType)
    as [h |]; [| left; auto].
  right. destruct (h phoneNumber) as [v | e]; simpl.
  - eexists _, _. repeat split. apply Promise_resolve_later.
  - eexists _, _. repeat split. intros t s E. inversion E. lia.
Qed.

(** C4: [notify] runs the built-in [simple] and [detailed] actions
    exactly when the tag is among the observer's types, whatever the
    event type, and the custom handler exactly when one is registered for
    the event type.  An observer created with [simple] and given an
    [emergency] handler runs both the simple action and the handler on
    [notify(num, 'emergency')], and the simple action alone on
    [notify(num, 'dial')]. *)
Theorem notify_runs_subscribed_actions (o : PhoneNumberObserver.t)
    (phoneNumber : jsstring) (eventType : option jsstring) (now : instant) :
  map PhoneNumberObserver.action
    (PhoneNumberObserver.notify o phoneNumber eventType now).1
  = Spec.builtin_actions o phoneNumber
    ++ Spec.custom_actions o phoneNumber (default (js "dial") eventType)
  /\ forall h : handler,
       map PhoneNumberObserver.action
         (PhoneNumberObserver.notify (Example.simple_with_emergency h)
            phoneNumber (Some (js "emergency")) now).1
       = [ConsoleLog phoneNumber; HandlerCall (js "emergency") phoneNumber]
       /\ map PhoneNumberObserver.action
            (PhoneNumberObserver.notify (Example.simple_with_emergency h)
               phoneNumber (Some (js "dial")) now).1
          = [ConsoleLog phoneNumber].
Proof.
  assert (Hgen : forall o' ty,
    map PhoneNumberObserver.action
      (PhoneNumberObserver.notify o' phoneNumber ty now).1
    = Spec.builtin_actions o' phoneNumber
      ++ Spec.custom_actions o' phoneNumber (default (js "dial") ty)).
  { intros o' ty. rewrite notify_cases. unfold Spec.custom_actions.
    destruct (PhoneNumberObserver.customHandlers o' !! default (js "dial") ty)
      as [h |].
    - rewrite bool_decide_eq_true_2 by eauto.
      destruct (h phoneNumber) as [v | e]; simpl;
        rewrite map_app, builtin_launched_actions; reflexivity.
    - rewrite bool_decide_eq_false_2 by (intros [? ?]; discriminate).
      simpl. rewrite app_nil_r. apply builtin_launched_actions. }
  split; [apply Hgen |].
  intros h.
  assert (Hb : Spec.builtin_actions (Example.simple_with_emergency h) phoneNumber
               = [ConsoleLog phoneNumber]).
  { unfold Spec.builtin_actions.
    replace (bool_decide (js "simple"
               ∈ PhoneNumberObserver.types (Example.simple_with_emergency h)))
      with true by (vm_compute; reflexivity).
    replace (bool_decide (js "detailed"
               ∈ PhoneNumberObserver.types (Example.simple_with_emergency h)))
      with false by (vm_compute; reflexivity).
    reflexivity. }
  rewrite !Hgen, Hb. unfold Spec.custom_actions, Example.simple_with_emergency.
  simpl. split.
  - rewrite lookup_insert_eq.
    rewrite bool_decide_eq_true_2 by eauto. reflexivity.
  - rewrite lookup_insert_ne by discriminate. rewrite lookup_empty.
    rewrite bool_decide_eq_false_2 by (intros [? ?]; discriminate). reflexivity.
Qed.

(** The promise of [notify] against the completions it records. *)
Lemma notify_waits (o : PhoneNumberObserver.t)
    (phoneNumber : jsstring) (eventType : option jsstring) (now : instant) :
  let started := (PhoneNumberObserver.notify o phoneNumber eventType now).1 in
  let p := (PhoneNumberObserver.notify o phoneNumber eventType now).2 in
  (forall t s, p = Settles t s ->
     forall l, l ∈ started ->
       exists t' s', PhoneNumberObserver.completes l = Settles t' s' /\ (t' <= t)%Z)
  /\ (forall l, l ∈ started ->
        Spec.is_builtin (PhoneNumberObserver.action l) = true ->
        PhoneNumberObserver.completes l = Settles now (Fulfilled tt))
  /\ List.filter Spec.is_builtin (map PhoneNumberObserver.action started)
     = Spec.builtin_actions o phoneNumber
  /\ (forall l t e, l ∈ started ->
        PhoneNumberObserver.completes l = Settles t (Rejected e) ->
        p = Settles t (Rejected e)).
Proof.
  intros started p.
  assert (Hbuiltin : forall l, l ∈ Spec.builtin_launched o phoneNumber now ->
            PhoneNumberObserver.completes l = Settles now (Fulfilled tt)).
  { intros l Hl. unfold Spec.builtin_launched in Hl.
    apply list_elem_of_In, in_map_iff in Hl as (a & <- & _). reflexivity. }
  destruct (notify_shape o phoneNumber eventType now)
    as [[Hs Hp] | (call & q & Hs & Hcall & Hp & Hq)];
    fold started in Hs; fold p in Hp; rewrite Hs, Hp; clear Hs Hp.
  - repeat split.
    + intros t s E l Hl. inversion E; subst.
      exists t, (Fulfilled tt). split; [apply Hbuiltin, Hl | lia].
    + intros l Hl _. apply Hbuiltin, Hl.
    + rewrite builtin_launched_actions. apply builtin_actions_builtin.
    + intros l t e Hl E. rewrite (Hbuiltin l Hl) in E. discriminate.
  - repeat split.
    + intros t s E l Hl. apply elem_of_app in Hl as [Hl | Hl].
      * exists now, (Fulfilled tt).
        split; [apply Hbuiltin, Hl | apply (Hq t s E)].
      * apply list_elem_of_singleton in Hl as ->. simpl.
        exists t, s. split; [exact E | lia].
    + intros l Hl Hb. apply elem_of_app in Hl as [Hl | Hl].
      * apply Hbuiltin, Hl.
      * apply list_elem_of_singleton in Hl as ->. simpl in Hb. congruence.
    + rewrite map_app, List.filter_app, builtin_launched_actions,
        builtin_actions_builtin. simpl. rewrite Hcall. apply app_nil_r.
    + intros l t e Hl E. apply elem_of_app in Hl as [Hl | Hl].
      * rewrite (Hbuiltin l Hl) in E. discriminate.
      * apply list_elem_of_singleton in Hl as ->. exact E.
Qed.

(** C5: [notify] runs the built-in actions of the tags, which are done
    at the instant of the call, and calls the handler registered for the
    event type; its promise settles exactly when and as that call
    completes: at once and rejected with [e] when the handler throws [e],
    at once when it returns a plain value, [delay] later and as the
    promise does when it returns a promise that settles after [delay],
    never when that promise never settles.  So [notify] completes no
    earlier than any action it started; the built-in actions are run and
    completed whatever the handler does; and a failure is surfaced at the
    instant of the failure, by which every started action has
    completed. *)
Theorem notify_completes_after_its_actions (o : PhoneNumberObserver.t)
    (phoneNumber : jsstring) (eventType : option jsstring) (now : instant) :
  let ty := default (js "dial") eventType in
  let started := (PhoneNumberObserver.notify o phoneNumber eventType now).1 in
  let p := (PhoneNumberObserver.notify o phoneNumber eventType now).2 in
  match PhoneNumberObserver.customHandlers o !! ty with
  | Some h =>
      started
      = Spec.builtin_launched o phoneNumber now
        ++ [PhoneNumberObserver.Launched (HandlerCall ty phoneNumber)
              (Outcome.of_handler now (h phoneNumber))]
      /\ p = Outcome.of_handler now (h phoneNumber)
  | None =>
      started = Spec.builtin_launched o phoneNumber now
      /\ p = Settles now (Fulfilled tt)
  end
  /\ (forall t s, p = Settles t s ->
        forall l, l ∈ started ->
          exists t' s',
            PhoneNumberObserver.completes l = Settles t' s' /\ (t' <= t)%Z)
  /\ (forall l, l ∈ started ->
        Spec.is_builtin (PhoneNumberObserver.action l) = true ->
        PhoneNumberObserver.completes l = Settles now (Fulfilled tt))
  /\ List.filter Spec.is_builtin (map PhoneNumberObserver.action started)
     = Spec.builtin_actions o phoneNumber
  /\ (forall l t e, l ∈ started ->
        PhoneNumberObserver.completes l = Settles t (Rejected e) ->
        p = Settles t (Rejected e)).
Proof.
  intros ty started p. split; [| apply notify_waits].
  subst started p. rewrite notify_cases. fold ty.
  destruct (PhoneNumberObserver.customHandlers o !! ty) as [h |]; [| auto].
  destruct (h phoneNumber) as [[| [delay s |]] | e]; simpl; auto.
Qed.

(** ** dialPhoneNumber *)

Section Dial.

Local Arguments Telephone.addToHistory : simpl never.

Implicit Types (H : heap) (tel : Telephone.t) (r : ref).

(** A settlement that is no failure, or a failure whose reason has a
    [message] that the template literal can print. *)
Definition readable (s : settlement unit) : Prop :=
  forall reason, s = Rejected reason ->
    exists message, template_message reason = Return message.

Lemma Promise_all_fulfilled (now : instant) (ps : list (promise unit)) :
  Forall (fun p => exists t, p = Settles t (Fulfilled tt)) ps ->
  exists t, Promise_all now ps = Settles t (Fulfilled tt) /\ (now <= t)%Z.
Proof.
  intros Hall.
  assert (Hps : first_rejection ps = None
                /\ exists t, all_settled now ps = Some t /\ (now <= t)%Z).
  { induction Hall as [|p ps [t ->] _ (IHr & t' & IHs & Hle)]; simpl.
    - split; [reflexivity |]. exists now. split; [reflexivity | lia].
    - split; [exact IHr |]. rewrite IHs. simpl.
      exists (Z.max t t'). split; [reflexivity | lia]. }
  destruct Hps as (Hr & t & Hs & Hle).
  unfold Promise_all. rewrite Hr, Hs. eauto.
Qed.

(** The per-observer [.catch] turns every failure whose reason is
    readable into a fulfilled promise. *)
Lemma notifyObserver_caught H now (n : jsstring) r t s :
  (PhoneNumberObserver.notify (H r) n None now).2 = Settles t s ->
  readable s ->
  (Telephone.notifyObserver H now n r).2 = Settles t (Fulfilled tt).
Proof.
  unfold Telephone.notifyObserver.
  destruct (PhoneNumberObserver.notify (H r) n None now) as [started p].
    simpl. intros -> Hread.
  destruct s as [[] | e]; simpl; [reflexivity |].
  unfold Telephone.report_failure.
  destruct (Hread e eq_refl) as [message ->]. reflexivity.
Qed.

(** Every observer is notified: what its [notify] starts is in the
    trace of [notifyObserver], whatever becomes of its promise. *)
Lemma notifyObserver_started H now (n : jsstring) r l :
  l ∈ (PhoneNumberObserver.notify (H r) n None now).1 ->
    (now, PhoneNumberObserver.action l) ∈ (Telephone.notifyObserver H now n r).1.1.
Proof.
  unfold Telephone.notifyObserver.
  destruct (PhoneNumberObserver.notify (H r) n None now) as [started p].
  destruct (Promise_catch p _) as [late p']. simpl. intros Hl.
  apply list_elem_of_In, in_map_iff. exists l.
  split; [reflexivity | apply list_elem_of_In, Hl].
Qed.

Lemma notifyObservers_started H now (n : jsstring) tel r l :
  r ∈ Telephone.observers tel ->
  l ∈ (PhoneNumberObserver.notify (H r) n None now).1 ->
  (now, PhoneNumberObserver.action l) ∈ (Telephone.notifyObservers H now n tel).1.
Proof.
    intros Hr Hl. unfold Telephone.notifyObservers. simpl.
  apply elem_of_app. left.
  apply list_elem_of_In, in_concat.
  exists (Telephone.notifyObserver H now n r).1.1. split.
  - rewrite map_map. apply in_map_iff. exists r.
    split; [reflexivity | apply list_elem_of_In, Hr].
  - apply list_elem_of_In, notifyObserver_started, Hl.
Qed.

(** What [dialPhoneNumber] does on a valid number: [false] and nothing
    appended when the number is not known; when it is known, one [dial]
    event appended, every registered observer notified, and [true] once
    all notifications have settled, provided the reason of every failure
    is readable. *)
Lemma dialPhoneNumber_valid H now (raw n : jsstring) tel :
  validatePhoneNumber raw = Return n ->
  (n ∉ Telephone.phoneNumbers tel ->
   (Telephone.dialPhoneNumber H now raw tel).1.1 = tel
   /\ (Telephone.dialPhoneNumber H now raw tel).2
      = Return (Settles now (Fulfilled false)))
  /\ (n ∈ Telephone.phoneNumbers tel ->
      (Telephone.dialPhoneNumber H now raw tel).1.1
      = Telephone.addToHistory (PhoneEvent.new (js "dial") n now) tel
      /\ (forall r l,
            r ∈ Telephone.observers tel ->
            l ∈ (PhoneNumberObserver.notify (H r) n None now).1 ->
            (now, PhoneNumberObserver.action l)
              ∈ (Telephone.dialPhoneNumber H now raw tel).1.2)
      /\ ((forall r, r ∈ Telephone.observers tel ->
             exists t s,
               (PhoneNumberObserver.notify (H r) n None now).2 = Settles t s
               /\ readable s) ->
          exists t,
            (Telephone.dialPhoneNumber H now raw tel).2
            = Return (Settles t (Fulfilled true))
            /\ (now <= t)%Z)).
Proof.
  intros Hv. split; intros Hn.
  - rewrite dialPhoneNumber_telephone. rewrite Hv.
    unfold Telephone.dialPhoneNumber, Telephone.dialPhoneNumber_body.
    rewrite Hv. rewrite !decide_False by exact Hn. auto.
  - split; [| split].
    + rewrite dialPhoneNumber_telephone, Hv.
      rewrite decide_True by exact Hn. reflexivity.
    + intros r l Hr Hl.
      pose proof (notifyObservers_started H now n
                    (Telephone.addToHistory (PhoneEvent.new (js "dial") n now) tel)
                    r l Hr Hl) as Hin.
      unfold Telephone.dialPhoneNumber, Telephone.dialPhoneNumber_body.
      rewrite Hv, decide_True by exact Hn.
      destruct (Telephone.notifyObservers H now n _) as [tr [t [v | error] |]];
        simpl in *; try (apply elem_of_cons; right; exact Hin).
      destruct (catch_log_rethrow t _ error) as [tr' e']; simpl;
      apply elem_of_cons; right; apply elem_of_app; left; exact Hin.
    + intros Hall.
      destruct (Promise_all_fulfilled now
                  (map snd (map (Telephone.notifyObserver H now n)
                              (Telephone.observers tel))))
        as (t & Ht & Hle).
      { apply Forall_forall. intros p Hp.
        apply list_elem_of_In, in_map_iff in Hp as (x & <- & Hx).
        apply in_map_iff in Hx as (r & <- & Hr).
        destruct (Hall r) as (t & s & Hs & Hread);
          [apply list_elem_of_In, Hr |].
        exists t. apply (notifyObserver_caught H now n r t s Hs Hread). }
      exists t. split; [| exact Hle].
      unfold Telephone.dialPhoneNumber, Telephone.dialPhoneNumber_body.
      rewrite Hv, decide_True by exact Hn.
      unfold Telephone.notifyObservers. simpl.
      change (Telephone.observers
                (Telephone.addToHistory (PhoneEvent.new (js "dial") n now) tel))
        with (Telephone.observers tel).
      rewrite Ht. reflexivity.
Qed.

End Dial.

(** C3, evaluated where the program departs from it: the number is
    valid and known and one observer is registered, whose handler for
    [dial] returns a promise rejected without a reason.  The [dial]
    event is appended, but the promise of [dialPhoneNumber] is rejected,
    with the [TypeError] of reading [message] of [undefined]. *)
Theorem dialPhoneNumber_fails_on_unreadable_reason :
  let w := Example.registered in
  let raw := js "+12345678900" in
  validatePhoneNumber raw = Return raw
  /\ bool_decide (raw ∈ Telephone.phoneNumbers (telephone w)) = true
  /\ Telephone.observers (telephone w) = [0]
  /\ (PhoneNumberObserver.notify (store w 0) raw None 7).2
     = Settles 7 (Rejected JUndefined)
  /\ Telephone.eventHistory (Telephone.dialPhoneNumber (store w) 7 raw (telephone w)).1.1
     = Telephone.eventHistory (telephone w) ++ [PhoneEvent.new (js "dial") raw 7]
  /\ (Telephone.dialPhoneNumber (store w) 7 raw (telephone w)).2
          = Return (Settles 7 (Rejected (TypeError_cannot_read_message (js "undefined")))).
Proof. repeat split; vm_compute; reflexivity. Qed.


(** * Further properties of the program *)

(** ** validatePhoneNumber: what it returns and what it rejects *)

(** X1: the string validation returns is the leading [+] of its
    argument, if any, followed by the digits of the argument in their
    order; it holds no white space and no hyphen and is no longer than
    the argument. *)
Theorem validatePhoneNumber_keeps_plus_and_digits (s n : jsstring) :
  validatePhoneNumber s = Return n ->
  n = Shape.plus_prefix s ++ List.filter Char.digit s
  /\ Shape.normalized n
  /\ Forall (fun c => Char.separator c = false) n
  /\ length n <= length s.
Proof.
  intros Hv. apply validatePhoneNumber_inv in Hv as [Hf ->].
  destruct (after_plus_without s Hf) as [Hbody Hdigits].
  pose proof Hf as Hb. apply format_body in Hb as [Hlen Hall]; [| reflexivity].
  split; [| split; [| split]].
  - destruct s as [|c r]; [simpl in Hlen; lia |].
    unfold Spec.after_plus, Shape.plus_prefix in *.
    destruct (N.eqb_spec c Char.plus) as [-> | Hne].
    + change (Spec.without Char.separator (Char.plus :: r))
        with (Char.plus :: Spec.without Char.separator r).
      destruct (without_separator_digits r Hall) as [-> _]. reflexivity.
    + destruct (without_separator_digits (c :: r) Hall) as [-> _]. reflexivity.
  - unfold Shape.normalized. rewrite Hbody. apply Forall_forall. intros c Hc.
    apply list_elem_of_In, filter_In in Hc as [_ Hc]. exact Hc.
  - apply Forall_forall. intros c Hc. unfold Spec.without in Hc.
    apply list_elem_of_In, filter_In in Hc as [_ Hc].
    apply negb_true_iff in Hc. exact Hc.
  - unfold Spec.without. apply List.filter_length_le.
Qed.

Lemma validatePhoneNumber_keeps_plus_and_digits_witness :
  js "+12345678900"
  = Shape.plus_prefix (js "+1-234-567-8900")
    ++ List.filter Char.digit (js "+1-234-567-8900").
Proof.
  destruct (validatePhoneNumber_keeps_plus_and_digits
              (js "+1-234-567-8900") (js "+12345678900")) as [Heq _];
    [reflexivity | exact Heq].
Defined.

(** X2: a string of fewer than 10 code units, the empty string among
    them, is rejected with the [PhoneNumberError]. *)
Theorem validatePhoneNumber_rejects_short (s : jsstring) :
  length s < 10 ->
  validatePhoneNumber s
  = Throw (PhoneNumberError (js "Invalid phone number format")).
Proof.
  intros Hlen. apply validatePhoneNumber_fail.
  intros (body & [-> | ->] & Hbody & _); simpl in Hlen; lia.
Qed.

Lemma validatePhoneNumber_rejects_short_witness :
  validatePhoneNumber []
  = Throw (PhoneNumberError (js "Invalid phone number format")).
Proof. apply (validatePhoneNumber_rejects_short []). simpl. lia. Defined.

(** X3: a string is rejected as soon as it holds one code unit that is
    neither a digit, white space nor a hyphen, other than a [+] in first
    position: a letter anywhere, or a [+] after the first position. *)
Theorem validatePhoneNumber_rejects_foreign (pre post : jsstring) (c : N) :
  Char.phone c = false ->
  pre <> [] \/ c <> Char.plus ->
  validatePhoneNumber (pre ++ c :: post)
  = Throw (PhoneNumberError (js "Invalid phone number format")).
Proof.
  intros Hc Hpos. apply validatePhoneNumber_fail.
  intros (body & Hs & _ & Hall).
  assert (Hin : c ∈ body).
  { destruct Hs as [<- | Hs].
    - apply elem_of_app. right. apply elem_of_cons. left. reflexivity.
    - destruct pre as [|p pre].
      + simpl in Hs. injection Hs as -> _. destruct Hpos; congruence.
      + simpl in Hs. injection Hs as _ <-.
        apply elem_of_app. right. apply elem_of_cons. left. reflexivity. }
  rewrite Forall_forall in Hall. specialize (Hall c Hin). congruence.
Qed.

Lemma validatePhoneNumber_rejects_foreign_witness :
  validatePhoneNumber (js "12345+67890")
  = Throw (PhoneNumberError (js "Invalid phone number format")).
Proof.
  apply (validatePhoneNumber_rejects_foreign (js "12345") (js "67890") Char.plus).
  - reflexivity.
  - left. discriminate.
Defined.


(** ** The number set *)

Section Numbers.

Local Set Warnings "-clear-no-such-hyp".
Local Arguments Telephone.addToHistory : simpl never.

Implicit Types (H : heap) (tel : Telephone.t) (raw n : jsstring).

(** X4: the registry tells numbers apart by their normal form only: two
    spellings with the same normal form give the same registry and the
    same result in [addPhoneNumber], in [removePhoneNumber] and in
    [dialPhoneNumber]. *)
Theorem spelling_is_irrelevant H (now : instant) raw1 raw2 n tel :
  validatePhoneNumber raw1 = Return n ->
  validatePhoneNumber raw2 = Return n ->
  Telephone.addPhoneNumber now raw1 tel = Telephone.addPhoneNumber now raw2 tel
  /\ Telephone.removePhoneNumber now raw1 tel
     = Telephone.removePhoneNumber now raw2 tel
  /\ Telephone.dialPhoneNumber H now raw1 tel
     = Telephone.dialPhoneNumber H now raw2 tel.
Proof.
  intros H1 H2.
  unfold Telephone.addPhoneNumber, Telephone.removePhoneNumber,
    Telephone.dialPhoneNumber, Telephone.dialPhoneNumber_body.
  rewrite H1, H2. auto.
Qed.

Lemma spelling_is_irrelevant_witness :
  Telephone.removePhoneNumber 2 (js "+1-234-567-8900") Example.one_added
  = Telephone.removePhoneNumber 2 (js "+1 234 567 8900") Example.one_added.
Proof.
  apply (spelling_is_irrelevant Example.H_rejecting 2
           (js "+1-234-567-8900") (js "+1 234 567 8900") (js "+12345678900")
           Example.one_added); reflexivity.
Defined.

(** X5: [addPhoneNumber] then [removePhoneNumber], in any two spellings
    of one number: the removal returns [true], the number is gone from the
    set, which is the set from before the addition without the number, and
    the log has received an [add] and then a [remove] event; a second
    removal returns [false] and leaves the registry as it is. *)
Theorem add_then_remove (now1 now2 now3 : instant) raw1 raw2 n tel :
  validatePhoneNumber raw1 = Return n ->
  validatePhoneNumber raw2 = Return n ->
  let tel1 := (Telephone.addPhoneNumber now1 raw1 tel).1.1 in
  let tel2 := (Telephone.removePhoneNumber now2 raw2 tel1).1.1 in
  (Telephone.removePhoneNumber now2 raw2 tel1).2 = Return true
  /\ (n ∉ Telephone.phoneNumbers tel2)
  /\ Telephone.phoneNumbers tel2 = Telephone.phoneNumbers tel ∖ {[n]}
  /\ tel2 = Telephone.addToHistory (PhoneEvent.new (js "remove") n now2)
              (Telephone.mk (Telephone.phoneNumbers tel ∖ {[n]})
                 (Telephone.observers tel)
                 (Telephone.eventHistory
                    (Telephone.addToHistory (PhoneEvent.new (js "add") n now1) tel))
                 (Telephone.maxHistorySize tel))
  /\ (Telephone.removePhoneNumber now3 raw2 tel2).1.1 = tel2
  /\ (Telephone.removePhoneNumber now3 raw2 tel2).2 = Return false.
Proof.
  intros H1 H2 tel1 tel2. subst tel1 tel2.
  unfold Telephone.addPhoneNumber, Telephone.removePhoneNumber.
  rewrite H1, !H2. cbn [fst snd].
  assert (Hset : (Telephone.phoneNumbers tel ∪ {[n]}) ∖ {[n]}
                 = Telephone.phoneNumbers tel ∖ {[n]}) by set_solver.
  rewrite decide_True by (simpl; set_solver).
  cbn [fst snd]. simpl Telephone.phoneNumbers. rewrite Hset.
  rewrite decide_False by set_solver.
  repeat split; try reflexivity. set_solver.
Qed.

Lemma add_then_remove_witness :
  (Telephone.removePhoneNumber 2 (js "+12345678900")
     (Telephone.addPhoneNumber 1 (js "+1-234-567-8900")
        (Telephone.constructor [])).1.1).2
  = Return true.
Proof.
  apply (add_then_remove 1 2 3 (js "+1-234-567-8900") (js "+12345678900")
           (js "+12345678900") (Telephone.constructor [])); reflexivity.
Defined.

(** X6: on a valid number that is not in the set, [removePhoneNumber]
    returns [false] and [dialPhoneNumber] fulfils with [false] at the
    instant of the call; both leave the registry exactly as it is, and
    [dialPhoneNumber] notifies no observer. *)
Theorem unknown_number_changes_nothing H (now : instant) raw n tel :
  validatePhoneNumber raw = Return n ->
  n ∉ Telephone.phoneNumbers tel ->
  Telephone.removePhoneNumber now raw tel
  = (tel,
     [(now, ConsoleLog (js "Phone number " ++ n ++ js " was not found."))],
     Return false)
  /\ Telephone.dialPhoneNumber H now raw tel
     = (tel,
        [(now, ConsoleLog (js "Phone number " ++ n
                             ++ js " not found. Please add the number first."))],
        Return (Settles now (Fulfilled false))).
Proof.
  intros Hv Hn.
  unfold Telephone.removePhoneNumber, Telephone.dialPhoneNumber,
    Telephone.dialPhoneNumber_body.
  rewrite Hv, !decide_False by exact Hn. auto.
Qed.

Lemma unknown_number_changes_nothing_witness :
  (Telephone.removePhoneNumber 0 (js "555-000-0000") (Telephone.constructor [])).2
  = Return false.
Proof.
  destruct (unknown_number_changes_nothing Example.H_rejecting 0
              (js "555-000-0000") (js "5550000000") (Telephone.constructor []))
    as [Hr _]; [reflexivity | set_solver |].
  rewrite Hr. reflexivity.
Defined.

(** X7: adding a number that is already in the set leaves the set as it
    is, and still returns the normal form and appends an [add] event. *)
Theorem add_known_number (now : instant) raw n tel :
  validatePhoneNumber raw = Return n ->
  n ∈ Telephone.phoneNumbers tel ->
  (Telephone.addPhoneNumber now raw tel).1.1
  = Telephone.addToHistory (PhoneEvent.new (js "add") n now) tel
  /\ Telephone.phoneNumbers (Telephone.addPhoneNumber now raw tel).1.1
     = Telephone.phoneNumbers tel
  /\ (Telephone.addPhoneNumber now raw tel).2 = Return n.
Proof.
  intros Hv Hn. unfold Telephone.addPhoneNumber. rewrite Hv. cbn [fst snd].
  assert (Hset : Telephone.phoneNumbers tel ∪ {[n]} = Telephone.phoneNumbers tel)
    by set_solver.
  rewrite Hset. destruct tel; auto.
Qed.

Lemma add_known_number_witness :
  Telephone.phoneNumbers
    (Telephone.addPhoneNumber 5 (js "+12345678900") Example.one_added).1.1
  = Telephone.phoneNumbers Example.one_added.
Proof.
  destruct (add_known_number 5 (js "+12345678900") (js "+12345678900")
              Example.one_added) as (_ & Hs & _).
  - reflexivity.
  - apply (bool_decide_unpack _). vm_compute. exact I.
  - exact Hs.
Defined.

End Numbers.


(** ** The observer set *)

Section Observers.

Local Arguments Telephone.addToHistory : simpl never.

Implicit Types (H : heap) (tel : Telephone.t) (r : ref).

Lemma filter_ne_absent r (l : list ref) :
  r ∉ l -> filter (fun x => x ≠ r) l = l.
Proof.
  induction l as [|x l IH]; intros Hr; [reflexivity |].
  apply not_elem_of_cons in Hr as [Hne Hr].
  rewrite filter_cons_True by congruence. rewrite IH by exact Hr. reflexivity.
Qed.

Lemma Set_add_NoDup r (l : list ref) :
  NoDup l -> NoDup (Telephone.Set_add r l).
Proof.
  intros Hl. unfold Telephone.Set_add. case_decide; [exact Hl |].
  apply NoDup_app. repeat split.
  - exact Hl.
  - intros x Hx Hx'. apply list_elem_of_singleton in Hx'. congruence.
  - apply NoDup_singleton.
Qed.

(** X8: [removeObserver] of an observer that is not registered returns
    [false] and leaves the registry exactly as it is; of one that is
    registered it returns [true], takes it out of the set, keeps the other
    observers in their order and appends one [observerRemoved] event
    carrying the observer's id. *)
Theorem removeObserver_spec H (now : instant) r tel :
  (r ∉ Telephone.observers tel ->
   Telephone.removeObserver H now r tel
   = (tel,
      [(now, ConsoleLog (js "Observer " ++ PhoneNumberObserver.id (H r)
                           ++ js " not found."))],
      false))
  /\ (r ∈ Telephone.observers tel ->
      let tel' := (Telephone.removeObserver H now r tel).1.1 in
      (Telephone.removeObserver H now r tel).2 = true
      /\ (r ∉ Telephone.observers tel')
      /\ Telephone.observers tel' = filter (fun x => x ≠ r) (Telephone.observers tel)
      /\ tel' = Telephone.addToHistory
                  (PhoneEvent.new (js "observerRemoved")
                     (PhoneNumberObserver.id (H r)) now)
                  (Telephone.mk (Telephone.phoneNumbers tel)
                     (filter (fun x => x ≠ r) (Telephone.observers tel))
                     (Telephone.eventHistory tel)
                     (Telephone.maxHistorySize tel))).
Proof.
  unfold Telephone.removeObserver, Telephone.Set_delete. split; intros Hr.
  - rewrite bool_decide_eq_false_2 by exact Hr. reflexivity.
  - rewrite bool_decide_eq_true_2 by exact Hr. cbn [fst snd].
    repeat split. simpl. intros Hin.
    apply list_elem_of_filter in Hin as [Hne _]. congruence.
Qed.

(** X9: [addObserver] then [removeObserver] of an observer that was not
    registered gives back the observer set from before, in its order, and
    returns [true]; the log has received an [observerAdded] and then an
    [observerRemoved] event. *)
Theorem addObserver_then_removeObserver H (now1 now2 : instant) r tel :
  r ∉ Telephone.observers tel ->
  let tel1 := (Telephone.addObserver H now1 r tel).1 in
  let tel2 := (Telephone.removeObserver H now2 r tel1).1.1 in
  (Telephone.removeObserver H now2 r tel1).2 = true
  /\ Telephone.observers tel1 = Telephone.observers tel ++ [r]
  /\ Telephone.observers tel2 = Telephone.observers tel
  /\ Telephone.phoneNumbers tel2 = Telephone.phoneNumbers tel
  /\ Telephone.eventHistory tel2
     = Telephone.eventHistory
         (Telephone.addToHistory
            (PhoneEvent.new (js "observerRemoved") (PhoneNumberObserver.id (H r)) now2)
            (Telephone.addToHistory
               (PhoneEvent.new (js "observerAdded") (PhoneNumberObserver.id (H r)) now1)
               tel)).
Proof.
  intros Hr tel1 tel2. subst tel1 tel2.
  unfold Telephone.addObserver, Telephone.removeObserver, Telephone.Set_delete,
    Telephone.Set_add.
  rewrite decide_False by exact Hr. cbn [fst snd].
  change (Telephone.observers (Telephone.addToHistory ?e ?t))
    with (Telephone.observers t). cbn [Telephone.observers].
  rewrite bool_decide_eq_true_2
    by (apply elem_of_app; right; apply list_elem_of_singleton; reflexivity).
  cbn [fst snd].
  assert (Hf : filter (fun x => x ≠ r) (Telephone.observers tel ++ [r])
               = Telephone.observers tel).
  { rewrite filter_app, filter_ne_absent by exact Hr.
    rewrite filter_cons_False by (intros Hne; apply Hne; reflexivity).
    rewrite filter_nil. apply app_nil_r. }
  repeat split; try reflexivity. simpl. exact Hf.
Qed.

Lemma addObserver_then_removeObserver_witness :
  Telephone.observers
    (Telephone.removeObserver Example.H_rejecting 2 7
       (Telephone.addObserver Example.H_rejecting 1 7 (Telephone.constructor [])).1).1.1
  = [].
Proof.
  destruct (addObserver_then_removeObserver Example.H_rejecting 1 2 7
              (Telephone.constructor [])) as (_ & _ & Ho & _).
  - apply not_elem_of_nil.
  - exact Ho.
Defined.

(** X10: registering an observer that is already registered leaves the
    observer set as it is, so the observer is still notified once per
    dial, and appends one more [observerAdded] event. *)
Theorem addObserver_registered H (now : instant) r tel :
  r ∈ Telephone.observers tel ->
  (Telephone.addObserver H now r tel).1
  = Telephone.addToHistory
      (PhoneEvent.new (js "observerAdded") (PhoneNumberObserver.id (H r)) now) tel
  /\ Telephone.observers (Telephone.addObserver H now r tel).1
     = Telephone.observers tel.
Proof.
  intros Hr. unfold Telephone.addObserver, Telephone.Set_add.
  rewrite decide_True by exact Hr. cbn [fst]. destruct tel; auto.
Qed.

Lemma addObserver_registered_witness :
  Telephone.observers
    (Telephone.addObserver Example.H_rejecting 5 0 (telephone Example.registered)).1
  = [0].
Proof.
  destruct (addObserver_registered Example.H_rejecting 5 0
              (telephone Example.registered)) as [_ Ho].
  - apply (bool_decide_unpack _). vm_compute. exact I.
  - rewrite Ho. reflexivity.
Defined.

End Observers.

(** ** What every sequence of operations keeps *)

Section Invariants.

Local Set Warnings "-clear-no-such-hyp".
Local Arguments Telephone.addToHistory : simpl never.

Implicit Types (H : heap) (w : World) (op : operation).

Lemma step_phoneNumbers (now : instant) op w :
  Telephone.phoneNumbers (telephone (step now op w))
  = match op with
    | AddPhoneNumber raw =>
        match validatePhoneNumber raw with
        | Return n => Telephone.phoneNumbers (telephone w) ∪ {[n]}
        | Throw _ => Telephone.phoneNumbers (telephone w)
        end
    | RemovePhoneNumber raw =>
        match validatePhoneNumber raw with
        | Return n => Telephone.phoneNumbers (telephone w) ∖ {[n]}
        | Throw _ => Telephone.phoneNumbers (telephone w)
        end
    | _ => Telephone.phoneNumbers (telephone w)
    end.
Proof.
  destruct w as [H tel].
  destruct op as [raw | raw | raw | r | r | f | r ty h];
    unfold step; cbn [store telephone]; try reflexivity.
  - unfold Telephone.addPhoneNumber.
    destruct (validatePhoneNumber raw) as [n | error]; [reflexivity |].
    destruct (catch_log_rethrow now _ error); reflexivity.
  - unfold Telephone.removePhoneNumber.
    destruct (validatePhoneNumber raw) as [n | error].
    + case_decide; [reflexivity |]. simpl. set_solver.
    + destruct (catch_log_rethrow now _ error); reflexivity.
  - rewrite dialPhoneNumber_telephone.
    destruct (validatePhoneNumber raw) as [n | error]; [| reflexivity].
    case_decide; reflexivity.
  - unfold Telephone.removeObserver, Telephone.Set_delete.
    destruct (bool_decide (r ∈ Telephone.observers tel)); reflexivity.
Qed.

Lemma step_observers (now : instant) op w :
  Telephone.observers (telephone (step now op w))
  = match op with
    | AddObserver r => Telephone.Set_add r (Telephone.observers (telephone w))
    | RemoveObserver r => filter (fun x => x ≠ r) (Telephone.observers (telephone w))
    | _ => Telephone.observers (telephone w)
    end.
Proof.
  destruct w as [H tel].
  destruct op as [raw | raw | raw | r | r | f | r ty h];
    unfold step; cbn [store telephone]; try reflexivity.
  - unfold Telephone.addPhoneNumber.
    destruct (validatePhoneNumber raw) as [n | error]; [reflexivity |].
    destruct (catch_log_rethrow now _ error); reflexivity.
  - unfold Telephone.removePhoneNumber.
    destruct (validatePhoneNumber raw) as [n | error].
    + case_decide; reflexivity.
    + destruct (catch_log_rethrow now _ error); reflexivity.
  - rewrite dialPhoneNumber_telephone.
    destruct (validatePhoneNumber raw) as [n | error]; [| reflexivity].
    case_decide; reflexivity.
  - unfold Telephone.removeObserver, Telephone.Set_delete.
    destruct (bool_decide_reflect (r ∈ Telephone.observers tel)) as [Hr | Hr];
      [reflexivity |].
    simpl. symmetry. apply filter_ne_absent, Hr.
Qed.

Lemma step_store_id (now : instant) op w (r : ref) :
  PhoneNumberObserver.id (store (step now op w) r)
  = PhoneNumberObserver.id (store w r).
Proof.
  destruct op as [raw | raw | raw | r' | r' | f | r' ty h]; try reflexivity.
  simpl. case_decide as Hr; [subst r'|]; reflexivity.
Qed.

Lemma validatePhoneNumber_normalized (raw n : jsstring) :
  validatePhoneNumber raw = Return n -> Shape.normalized n.
Proof.
  intros Hv. apply validatePhoneNumber_inv in Hv as [Hf ->].
  destruct (after_plus_without raw Hf) as [Hbody _].
  unfold Shape.normalized. rewrite Hbody. apply Forall_forall. intros c Hc.
  apply list_elem_of_In, filter_In in Hc as [_ Hc]. exact Hc.
Qed.

(** X11: no operation on numbers touches the observer set, no operation
    on observers touches the number set, and [dialPhoneNumber] touches
    neither, whatever the observers' handlers return or throw. *)
Theorem operations_keep_to_their_set (now : instant) op w :
  match op with
  | AddPhoneNumber _ | RemovePhoneNumber _ =>
      Telephone.observers (telephone (step now op w))
      = Telephone.observers (telephone w)
  | AddObserver _ | RemoveObserver _ =>
      Telephone.phoneNumbers (telephone (step now op w))
      = Telephone.phoneNumbers (telephone w)
  | DialPhoneNumber _ =>
      Telephone.observers (telephone (step now op w))
      = Telephone.observers (telephone w)
      /\ Telephone.phoneNumbers (telephone (step now op w))
         = Telephone.phoneNumbers (telephone w)
  | GetEventHistory _ | AddCustomNotification _ _ _ =>
      telephone (step now op w) = telephone w
  end.
Proof.
  pose proof (step_phoneNumbers now op w) as Hn.
  pose proof (step_observers now op w) as Ho.
  destruct op; auto.
Qed.

Lemma run_phoneNumbers (ops : list (instant * operation)) :
  forall w (n : jsstring),
    n ∈ Telephone.phoneNumbers (telephone (run ops w)) ->
    n ∈ Telephone.phoneNumbers (telephone w)
    \/ exists now raw,
         (now, AddPhoneNumber raw) ∈ ops /\ validatePhoneNumber raw = Return n.
Proof.
  induction ops as [|[now op] ops IH]; intros w n Hn; simpl in Hn; [auto |].
  destruct (IH _ _ Hn) as [Hin | (now' & raw & Hin & Hv)].
  - rewrite step_phoneNumbers in Hin.
    destruct op as [raw | raw | raw | r | r | f | r ty h]; auto.
    + destruct (validatePhoneNumber raw) as [m | error] eqn:Hv; [| auto].
      apply elem_of_union in Hin as [Hin | Hin]; [auto |].
      apply elem_of_singleton in Hin as ->.
      right. exists now, raw. split; [apply elem_of_cons; auto | exact Hv].
    + destruct (validatePhoneNumber raw) as [m | error]; [| auto].
      apply elem_of_difference in Hin as [Hin _]. auto.
  - right. exists now', raw. split; [apply elem_of_cons; auto | exact Hv].
Qed.

(** X12: after any sequence of operations on a new registry, every
    number in the set is the normal form of a string that some
    [addPhoneNumber] of the sequence was given, hence digits only after
    an optional leading [+]. *)
Theorem stored_numbers_are_normal_forms H (ops : list (instant * operation))
    (n : jsstring) :
  n ∈ Telephone.phoneNumbers (telephone (run ops (fresh H))) ->
  Shape.normalized n
  /\ exists now raw,
       (now, AddPhoneNumber raw) ∈ ops /\ validatePhoneNumber raw = Return n.
Proof.
  intros Hn. apply run_phoneNumbers in Hn as [Hn | (now & raw & Hin & Hv)].
  - simpl in Hn. apply not_elem_of_empty in Hn. contradiction.
  - split; [eapply validatePhoneNumber_normalized; exact Hv | eauto].
Qed.

Lemma stored_numbers_are_normal_forms_witness :
  Shape.normalized (js "+12345678900").
Proof.
  apply (stored_numbers_are_normal_forms Example.H_rejecting
           [(0%Z, AddObserver 0); (1%Z, AddPhoneNumber (js "+1-234-567-8900"))]
           (js "+12345678900")).
  apply (bool_decide_unpack _). vm_compute. exact I.
Defined.

Lemma run_observers_NoDup (ops : list (instant * operation)) :
  forall w,
    NoDup (Telephone.observers (telephone w)) ->
    NoDup (Telephone.observers (telephone (run ops w))).
Proof.
  induction ops as [|[now op] ops IH]; intros w Hw; simpl; [exact Hw |].
  apply IH. rewrite step_observers.
  destruct op; auto using Set_add_NoDup, NoDup_filter.
Qed.

(** X13: after any sequence of operations on a new registry the observer
    set holds no observer twice, however often [addObserver] was called
    with it: [notifyObservers] walks each registered observer once. *)
Theorem observers_are_distinct H (ops : list (instant * operation)) :
  NoDup (Telephone.observers (telephone (run ops (fresh H)))).
Proof. apply run_observers_NoDup. simpl. apply NoDup_nil_2. Qed.

Lemma all_appended_logged H (ops : list (instant * operation)) :
  forall w (e : PhoneEvent.t),
    (forall r, PhoneNumberObserver.id (store w r) = PhoneNumberObserver.id (H r)) ->
    e ∈ Spec.all_appended ops w ->
    exists now op,
      (now, op) ∈ ops /\ PhoneEvent.timestamp e = now /\ Shape.logged_by H op e.
Proof.
  induction ops as [|[now op] ops IH]; intros w e Hid He; simpl in He.
  - apply elem_of_nil in He. contradiction.
  - apply elem_of_app in He as [He | He].
    + exists now, op. split; [apply elem_of_cons; auto |].
      unfold Spec.appended in He.
      destruct op as [raw | raw | raw | r | r | f | r ty h]; simpl;
        repeat match type of He with
          | _ ∈ match validatePhoneNumber ?raw with _ => _ end =>
              destruct (validatePhoneNumber raw) eqn:Hv
          | _ ∈ (if ?b then _ else _) => destruct b
          end;
        try (apply elem_of_nil in He; contradiction);
        apply list_elem_of_singleton in He as ->; simpl;
        rewrite <- ?Hid; auto.
    + destruct (IH (step now op w) e) as (now' & op' & Hin & Ht & Hl);
        [intros r; rewrite step_store_id; apply Hid | exact He |].
      exists now', op'. split; [apply elem_of_cons; auto | auto].
Qed.

(** X14: after any sequence of operations on a new registry, every event
    of the history was appended by one operation of the sequence: its
    timestamp is the clock reading of that operation, its type is the type
    of that operation, and it carries the normal form of the number the
    operation was given or the id of the observer it was given. *)
Theorem history_events_come_from_operations H (ops : list (instant * operation))
    (e : PhoneEvent.t) :
  e ∈ Telephone.eventHistory (telephone (run ops (fresh H))) ->
  exists now op,
    (now, op) ∈ ops /\ PhoneEvent.timestamp e = now /\ Shape.logged_by H op e.
Proof.
  intros He.
  destruct (run_history ops (fresh H) []) as [_ Hlog]; [reflexivity |].
  rewrite Hlog in He. unfold Spec.most_recent in He.
  apply (subseteq_drop _ _ e) in He. simpl in He.
  apply (all_appended_logged H ops (fresh H) e); [reflexivity | exact He].
Qed.

Lemma history_events_come_from_operations_witness :
  exists now op,
    (now, op) ∈ [(0%Z, AddObserver 0); (1%Z, AddPhoneNumber (js "+1-234-567-8900"))]
    /\ PhoneEvent.timestamp (PhoneEvent.new (js "add") (js "+12345678900") 1) = now
    /\ Shape.logged_by Example.H_rejecting op
         (PhoneEvent.new (js "add") (js "+12345678900") 1).
Proof.
  apply (history_events_come_from_operations Example.H_rejecting
           [(0%Z, AddObserver 0); (1%Z, AddPhoneNumber (js "+1-234-567-8900"))]).
  vm_compute. apply elem_of_cons. right. apply elem_of_cons. left. reflexivity.
Defined.

End Invariants.

(** ** Dialling and the observers *)

Section Fanout.

Local Set Warnings "-clear-no-such-hyp".
Local Arguments Telephone.addToHistory : simpl never.

Implicit Types (H : heap) (tel : Telephone.t) (r : ref) (n : jsstring).

Lemma builtin_launched_is_log (o : PhoneNumberObserver.t) n (now : instant)
    (l : PhoneNumberObserver.launched) :
  l ∈ Spec.builtin_launched o n now ->
  exists line, PhoneNumberObserver.action l = ConsoleLog line.
Proof.
  unfold Spec.builtin_launched, Spec.builtin_actions. intros Hl.
  apply list_elem_of_fmap in Hl as (a & -> & Ha). simpl.
  do 2 case_bool_decide; simpl in Ha;
    repeat match goal with
      | Hx : _ ∈ _ :: _ |- _ => apply elem_of_cons in Hx as [-> | Hx]
      | Hx : _ ∈ [] |- _ => apply elem_of_nil in Hx; contradiction
      end; eauto.
Qed.

(** A handler that [notify] calls is the one registered for the event
    type, called with the number. *)
Lemma notify_handler_call (o : PhoneNumberObserver.t) n (eventType : option jsstring)
    (now : instant) (l : PhoneNumberObserver.launched) (ty arg : jsstring) :
  l ∈ (PhoneNumberObserver.notify o n eventType now).1 ->
  PhoneNumberObserver.action l = HandlerCall ty arg ->
  ty = default (js "dial") eventType /\ arg = n
  /\ is_Some (PhoneNumberObserver.customHandlers o !! ty).
Proof.
  rewrite notify_cases. intros Hl Ha.
  assert (Hb : l ∉ Spec.builtin_launched o n now).
  { intros Hin. apply builtin_launched_is_log in Hin as [line Hline]. congruence. }
  destruct (PhoneNumberObserver.customHandlers o !! default (js "dial") eventType)
    as [h |] eqn:Hh; [| contradiction].
  destruct (h n) as [v | e]; simpl in Hl;
    apply elem_of_app in Hl as [Hl | Hl]; try contradiction;
    apply list_elem_of_singleton in Hl as ->; simpl in Ha;
    injection Ha as <- <-; rewrite Hh; eauto.
Qed.

Lemma catch_log_rethrow_trace (t : instant) (prefix : jsstring) (error : jsval)
    (x : instant * effect) :
  x ∈ (catch_log_rethrow t prefix error).1 -> exists line, x = (t, ConsoleError line).
Proof.
  unfold catch_log_rethrow. destruct (template_message error); simpl; intros Hx.
  - apply list_elem_of_singleton in Hx as ->. eauto.
  - apply elem_of_nil in Hx. contradiction.
Qed.

(** What [notifyObserver] writes: the actions [notify] starts, at the
    instant of the call, and the report of a failure. *)
Lemma notifyObserver_trace H (now : instant) n r (x : instant * effect) :
  x ∈ (Telephone.notifyObserver H now n r).1.1
  \/ x ∈ (Telephone.notifyObserver H now n r).1.2 ->
  (exists l, l ∈ (PhoneNumberObserver.notify (H r) n None now).1
             /\ x = (now, PhoneNumberObserver.action l))
  \/ exists t line, x = (t, ConsoleError line).
Proof.
  unfold Telephone.notifyObserver.
  destruct (PhoneNumberObserver.notify (H r) n None now) as [started p].
  intros [Hx | Hx].
  - destruct (Promise_catch p _) as [late p']. simpl in Hx.
    apply list_elem_of_fmap in Hx as (l & -> & Hl). eauto.
  - right. destruct p as [t [v | error] |]; simpl in Hx;
      try (apply elem_of_nil in Hx; contradiction).
    unfold Telephone.report_failure in Hx.
    destruct (template_message error); simpl in Hx.
    + apply list_elem_of_singleton in Hx as ->. eauto.
    + apply elem_of_nil in Hx. contradiction.
Qed.

Lemma notifyObservers_trace H (now : instant) n tel (x : instant * effect) :
  x ∈ (Telephone.notifyObservers H now n tel).1 ->
    exists r, r ∈ Telephone.observers tel
            /\ (x ∈ (Telephone.notifyObserver H now n r).1.1
                \/ x ∈ (Telephone.notifyObserver H now n r).1.2).
Proof.
  unfold Telephone.notifyObservers. simpl. intros Hx.
  apply elem_of_app in Hx as [Hx | Hx];
    apply list_elem_of_In, in_concat in Hx as (tr & Htr & Hx);
    rewrite map_map in Htr; apply in_map_iff in Htr as (r & <- & Hr);
    exists r; (split; [apply list_elem_of_In, Hr |]);
    [left | right]; apply list_elem_of_In, Hx.
Qed.

(** X15: the only handlers [dialPhoneNumber] ever calls are the ones
    registered for the event type [dial], by registered observers, at the
    instant of the call and with the normal form of a number that is in
    the set; a handler registered for any other event type is never called
    by the registry. *)
Theorem dialPhoneNumber_calls_dial_handlers_only H (now : instant)
    (raw : jsstring) tel (t : instant) (ty arg : jsstring) :
  (t, HandlerCall ty arg) ∈ (Telephone.dialPhoneNumber H now raw tel).1.2 ->
  ty = js "dial" /\ t = now
  /\ validatePhoneNumber raw = Return arg
  /\ arg ∈ Telephone.phoneNumbers tel
  /\ exists r, r ∈ Telephone.observers tel
               /\ is_Some (PhoneNumberObserver.customHandlers (H r) !! js "dial").
Proof.
  unfold Telephone.dialPhoneNumber, Telephone.dialPhoneNumber_body.
  destruct (validatePhoneNumber raw) as [n | error].
  - destruct (decide (n ∈ Telephone.phoneNumbers tel)) as [Hn | Hn].
    + intros Hx.
      assert (Hin : (t, HandlerCall ty arg)
                    ∈ (Telephone.notifyObservers H now n
                         (Telephone.addToHistory
                            (PhoneEvent.new (js "dial") n now) tel)).1).
      { destruct (Telephone.notifyObservers H now n _) as [tr [t0 [v | e] |]];
          simpl in *.
        - apply elem_of_cons in Hx as [Hx | Hx]; [discriminate | exact Hx].
        - destruct (catch_log_rethrow t0 _ e) as [tr' e'] eqn:Hc. simpl in Hx.
          apply elem_of_cons in Hx as [Hx | Hx]; [discriminate |].
          apply elem_of_app in Hx as [Hx | Hx]; [exact Hx |].
          pose proof (catch_log_rethrow_trace t0 (js "Failed to dial number: ") e
                        (t, HandlerCall ty arg)) as Hl.
          rewrite Hc in Hl. destruct (Hl Hx) as [line Hline]. discriminate.
        - apply elem_of_cons in Hx as [Hx | Hx]; [discriminate | exact Hx]. }
      apply notifyObservers_trace in Hin as (r & Hr & Hin).
      apply notifyObserver_trace in Hin as [(l & Hl & Hx') | (t' & line & Hx')];
        [| discriminate].
      injection Hx' as -> Ha. symmetry in Ha.
      destruct (notify_handler_call _ _ _ _ _ _ _ Hl Ha) as (-> & -> & Hsome).
      repeat split; try assumption; try reflexivity.
      exists r. split; assumption.
    + simpl. intros Hx. apply list_elem_of_singleton in Hx. discriminate.
  - destruct (catch_log_rethrow now _ error) as [tr e] eqn:Hc. simpl. intros Hx.
    pose proof (catch_log_rethrow_trace now (js "Failed to dial number: ") error
                  (t, HandlerCall ty arg)) as Hl.
    rewrite Hc in Hl. destruct (Hl Hx) as [line Hline]. discriminate.
Qed.

Lemma dialPhoneNumber_calls_dial_handlers_only_witness :
  js "dial" = js "dial" /\ 7%Z = 7%Z
  /\ validatePhoneNumber (js "+12345678900") = Return (js "+12345678900")
  /\ js "+12345678900" ∈ Telephone.phoneNumbers (telephone Example.registered)
  /\ exists r, r ∈ Telephone.observers (telephone Example.registered)
               /\ is_Some (PhoneNumberObserver.customHandlers (Shape.H_throwing r)
                             !! js "dial").
Proof.
  apply (dialPhoneNumber_calls_dial_handlers_only Shape.H_throwing 7
           (js "+12345678900") (telephone Example.registered)
           7 (js "dial") (js "+12345678900")).
  vm_compute. apply elem_of_cons. right. apply elem_of_cons. right.
  apply elem_of_cons. left. reflexivity.
Defined.

Lemma all_settled_inv (now t : instant) (ps : list (promise unit)) :
  all_settled now ps = Some t ->
  (now <= t)%Z
  /\ forall p, p ∈ ps -> exists t' s, p = Settles t' s /\ (t' <= t)%Z.
Proof.
  revert t. induction ps as [|p ps IH]; intros t Hs; simpl in Hs.
  - injection Hs as <-. split; [lia |]. intros p Hp.
    apply elem_of_nil in Hp. contradiction.
  - destruct p as [t0 s0 |]; [| discriminate].
    destruct (all_settled now ps) as [t1 |]; [| discriminate].
    injection Hs as <-. destruct (IH t1 eq_refl) as [Hle Hall].
    split; [lia |]. intros p Hp. apply elem_of_cons in Hp as [-> | Hp].
    + exists t0, s0. split; [reflexivity | lia].
    + destruct (Hall p Hp) as (t' & s' & -> & Hle'). exists t', s'.
      split; [reflexivity | lia].
Qed.

Lemma Promise_all_fulfilled_inv (now t : instant) (ps : list (promise unit)) (v : unit) :
  Promise_all now ps = Settles t (Fulfilled v) ->
  (now <= t)%Z
  /\ forall p, p ∈ ps -> exists t' s, p = Settles t' s /\ (t' <= t)%Z.
Proof.
  unfold Promise_all. destruct (first_rejection ps) as [[t0 e] |]; [discriminate |].
  destruct (all_settled now ps) as [t1 |] eqn:Hs; [| discriminate].
  intros E. injection E as <-. apply all_settled_inv, Hs.
Qed.

(** [.catch] settles when the promise it is called on settles. *)
Lemma notifyObserver_settles H (now t : instant) n r (s : settlement unit) :
  (Telephone.notifyObserver H now n r).2 = Settles t s ->
  exists s', (PhoneNumberObserver.notify (H r) n None now).2 = Settles t s'.
Proof.
  unfold Telephone.notifyObserver.
  destruct (PhoneNumberObserver.notify (H r) n None now) as [started p].
  destruct p as [t0 [v | error] |]; simpl.
  - intros E. injection E as <- _. eauto.
  - destruct (Telephone.report_failure (H r) error) as [fx c]. simpl.
    intros E. injection E as <- _. eauto.
  - discriminate.
Qed.

(** X16: when the promise of [dialPhoneNumber] is fulfilled with [true],
    the number was in the set and the notification of every registered
    observer has settled by then: [dialPhoneNumber] waits for the whole
    fan-out, and never reports before the instant of the call. *)
Theorem dialPhoneNumber_waits_for_observers H (now t : instant) (raw : jsstring)
    n tel :
  validatePhoneNumber raw = Return n ->
  (Telephone.dialPhoneNumber H now raw tel).2 = Return (Settles t (Fulfilled true)) ->
  n ∈ Telephone.phoneNumbers tel
  /\ (now <= t)%Z
  /\ forall r, r ∈ Telephone.observers tel ->
       exists t' s,
         (PhoneNumberObserver.notify (H r) n None now).2 = Settles t' s
         /\ (t' <= t)%Z.
Proof.
  intros Hv. unfold Telephone.dialPhoneNumber, Telephone.dialPhoneNumber_body.
  rewrite Hv.
  destruct (decide (n ∈ Telephone.phoneNumbers tel)) as [Hn | Hn];
    [| simpl; discriminate].
  unfold Telephone.notifyObservers.
  change (Telephone.observers
            (Telephone.addToHistory (PhoneEvent.new (js "dial") n now) tel))
    with (Telephone.observers tel).
  destruct (Promise_all now _) as [t0 [v | e] |] eqn:Hp; simpl.
  - intros E. injection E as <-.
    apply Promise_all_fulfilled_inv in Hp as [Hle Hall].
    repeat split; [exact Hn | exact Hle |].
    intros r Hr.
    destruct (Hall (Telephone.notifyObserver H now n r).2) as (t' & s & Hs & Hle').
    { rewrite map_map. apply list_elem_of_fmap. exists r. auto. }
    apply notifyObserver_settles in Hs as [s' Hs']. eauto.
  - destruct (catch_log_rethrow t0 _ e). simpl. discriminate.
  - discriminate.
Qed.

Lemma dialPhoneNumber_waits_for_observers_witness :
  js "+12345678900" ∈ Telephone.phoneNumbers (telephone Example.registered)
  /\ (7 <= 7)%Z
  /\ forall r, r ∈ Telephone.observers (telephone Example.registered) ->
       exists t' s,
         (PhoneNumberObserver.notify (Shape.H_throwing r) (js "+12345678900")
            None 7).2 = Settles t' s
         /\ (t' <= 7)%Z.
Proof.
  apply (dialPhoneNumber_waits_for_observers Shape.H_throwing 7 7
           (js "+12345678900") (js "+12345678900") (telephone Example.registered));
    reflexivity.
Defined.

(** X17: a failing observer does not make [dialPhoneNumber] fail when
    the [.catch] callback can print the reason's [message], as it can for
    a thrown [Error] with a string message or for a primitive other than
    [undefined] and [null], and as it cannot for [undefined], for [null]
    or for an object whose [message] throws when read or printed: if
    every registered observer's notification settles, with success or
    with such a printable failure, the promise of [dialPhoneNumber] on a
    number of the set is fulfilled with [true]. *)
Theorem dialPhoneNumber_survives_failures H (now : instant) (raw : jsstring) n tel :
  validatePhoneNumber raw = Return n ->
  n ∈ Telephone.phoneNumbers tel ->
  (forall r, r ∈ Telephone.observers tel ->
     exists t s,
       (PhoneNumberObserver.notify (H r) n None now).2 = Settles t s
       /\ readable s) ->
  exists t,
    (Telephone.dialPhoneNumber H now raw tel).2 = Return (Settles t (Fulfilled true))
    /\ (now <= t)%Z.
Proof.
  intros Hv Hn Hall.
  destruct (dialPhoneNumber_valid H now raw n tel Hv) as [_ Hknown].
  destruct (Hknown Hn) as (_ & _ & Hok). apply Hok, Hall.
Qed.

Lemma dialPhoneNumber_survives_failures_witness :
  exists t,
    (Telephone.dialPhoneNumber Shape.H_throwing 7 (js "+12345678900")
       (telephone Example.registered)).2
    = Return (Settles t (Fulfilled true))
    /\ (7 <= t)%Z.
Proof.
  apply (dialPhoneNumber_survives_failures Shape.H_throwing 7
           (js "+12345678900") (js "+12345678900") (telephone Example.registered)).
  - reflexivity.
  - apply (bool_decide_unpack _). vm_compute. exact I.
    - intros r _. exists 7%Z, (Rejected (JError "Error" (js "boom"))).
    split; [reflexivity |].
    intros reason E. injection E as <-. exists (js "boom"). reflexivity.
Defined.

(** X18: when the notification of a registered observer is rejected
    with an [Error], the registry writes, at the instant of the rejection,
    "Failed to notify observer", the observer's id and the error's
    message to the error console, and the failure goes no further. *)
Theorem observer_failure_is_reported H (now t : instant) n tel r
    (name : string) (message : jsstring) :
  r ∈ Telephone.observers tel ->
  (PhoneNumberObserver.notify (H r) n None now).2
  = Settles t (Rejected (JError name message)) ->
  (t, ConsoleError (js "Failed to notify observer "
                      ++ PhoneNumberObserver.id (H r) ++ js ": " ++ message))
    ∈ (Telephone.notifyObservers H now n tel).1
  /\ (Telephone.notifyObserver H now n r).2 = Settles t (Fulfilled tt).
Proof.
  intros Hr Hp.
  assert (Hone : (t, ConsoleError (js "Failed to notify observer "
                      ++ PhoneNumberObserver.id (H r) ++ js ": " ++ message))
                                      ∈ (Telephone.notifyObserver H now n r).1.2
                 /\ (Telephone.notifyObserver H now n r).2 = Settles t (Fulfilled tt)).
  { unfold Telephone.notifyObserver.
    destruct (PhoneNumberObserver.notify (H r) n None now) as [started p].
    simpl in Hp. subst p. simpl. split; [| reflexivity].
    apply list_elem_of_singleton. reflexivity. }
  destruct Hone as [Hin Hq]. split; [| exact Hq].
  unfold Telephone.notifyObservers. simpl.
  apply elem_of_app. right.
  apply list_elem_of_In, in_concat.
  exists (Telephone.notifyObserver H now n r).1.2. split.
  - rewrite map_map. apply in_map_iff. exists r.
    split; [reflexivity | apply list_elem_of_In, Hr].
  - apply list_elem_of_In, Hin.
Qed.

Lemma observer_failure_is_reported_witness :
  (7%Z, ConsoleError (js "Failed to notify observer obs1: boom"))
    ∈ (Telephone.notifyObservers Shape.H_throwing 7 (js "+12345678900")
         (telephone Example.registered)).1.
Proof.
  apply (observer_failure_is_reported Shape.H_throwing 7 7 (js "+12345678900")
           (telephone Example.registered) 0 "Error" (js "boom")).
  - apply (bool_decide_unpack _). vm_compute. exact I.
  - reflexivity.
Defined.

(** X19: [dialPhoneNumber] of a number added before, in any spelling of
    it, finds it: the [dial] event is appended to the log that the
    addition left, and with no observer registered the promise is
    fulfilled with [true] at the instant of the call. *)
Theorem add_then_dial H (now1 now2 : instant) (raw1 raw2 : jsstring) n tel :
  validatePhoneNumber raw1 = Return n ->
  validatePhoneNumber raw2 = Return n ->
  let tel1 := (Telephone.addPhoneNumber now1 raw1 tel).1.1 in
  (Telephone.dialPhoneNumber H now2 raw2 tel1).1.1
  = Telephone.addToHistory (PhoneEvent.new (js "dial") n now2) tel1
  /\ (Telephone.observers tel = [] ->
      (Telephone.dialPhoneNumber H now2 raw2 tel1).2
      = Return (Settles now2 (Fulfilled true))).
Proof.
  intros H1 H2 tel1.
  assert (Hn : n ∈ Telephone.phoneNumbers tel1).
  { subst tel1. unfold Telephone.addPhoneNumber. rewrite H1. simpl. set_solver. }
  assert (Ho : Telephone.observers tel1 = Telephone.observers tel).
  { subst tel1. unfold Telephone.addPhoneNumber. rewrite H1. reflexivity. }
  split.
  - rewrite dialPhoneNumber_telephone, H2, decide_True by exact Hn. reflexivity.
  - intros Hnone.
    unfold Telephone.dialPhoneNumber, Telephone.dialPhoneNumber_body.
    rewrite H2, decide_True by exact Hn.
    unfold Telephone.notifyObservers.
    change (Telephone.observers
              (Telephone.addToHistory (PhoneEvent.new (js "dial") n now2) tel1))
      with (Telephone.observers tel1).
    rewrite Ho, Hnone. reflexivity.
Qed.

Lemma add_then_dial_witness :
  (Telephone.dialPhoneNumber Example.H_rejecting 2 (js "+12345678900")
     Example.one_added).2
  = Return (Settles 2 (Fulfilled true)).
Proof.
  apply (add_then_dial Example.H_rejecting 1 2 (js "+1-234-567-8900")
           (js "+12345678900") (js "+12345678900") (Telephone.constructor []));
    reflexivity.
Defined.

End Fanout.

(** ** Custom notifications *)

Section Custom.

Local Set Warnings "-clear-no-such-hyp".

Implicit Types (o : PhoneNumberObserver.t) (ty : jsstring) (h : handler).

(** X20: registering a handler for an event type that already has one
    replaces it: the observer is the same as if only the last handler had
    been registered; the handlers of the other event types are kept, and
    the observer stays subscribed to everything it was subscribed to. *)
Theorem addCustomNotification_last_wins o ty h1 h2 :
  PhoneNumberObserver.addCustomNotification ty h2
    (PhoneNumberObserver.addCustomNotification ty h1 o)
  = PhoneNumberObserver.addCustomNotification ty h2 o
  /\ PhoneNumberObserver.customHandlers
       (PhoneNumberObserver.addCustomNotification ty h2 o) !! ty = Some h2
  /\ (forall ty', ty' <> ty ->
        PhoneNumberObserver.customHandlers
          (PhoneNumberObserver.addCustomNotification ty h2 o) !! ty'
        = PhoneNumberObserver.customHandlers o !! ty')
  /\ PhoneNumberObserver.types o
     ⊆ PhoneNumberObserver.types (PhoneNumberObserver.addCustomNotification ty h2 o)
  /\ PhoneNumberObserver.id (PhoneNumberObserver.addCustomNotification ty h2 o)
     = PhoneNumberObserver.id o.
Proof.
  unfold PhoneNumberObserver.addCustomNotification. simpl. repeat split.
  - f_equal.
    + set_solver.
    + apply insert_insert_eq.
  - apply lookup_insert_eq.
  - intros ty' Hne. apply lookup_insert_ne. congruence.
  - set_solver.
Qed.

(** X21: the tag that [addCustomNotification] adds is not told apart from
    a tag given to the constructor: after a handler is registered under
    the name [simple], every [notify] of the observer runs the built-in
    simple action, whatever the event type, and under the name [detailed]
    the built-in detailed action. *)
Theorem custom_handler_named_as_builtin o h (phoneNumber : jsstring)
    (eventType : option jsstring) (now : instant) :
  ConsoleLog phoneNumber
    ∈ map PhoneNumberObserver.action
        (PhoneNumberObserver.notify
           (PhoneNumberObserver.addCustomNotification (js "simple") h o)
           phoneNumber eventType now).1
  /\ ConsoleLog (js "Now Dialing " ++ phoneNumber ++ js "...")
       ∈ map PhoneNumberObserver.action
           (PhoneNumberObserver.notify
              (PhoneNumberObserver.addCustomNotification (js "detailed") h o)
              phoneNumber eventType now).1.
Proof.
  assert (Hpre : forall o' : PhoneNumberObserver.t, forall a : effect,
            a ∈ Spec.builtin_actions o' phoneNumber ->
            a ∈ map PhoneNumberObserver.action
                  (PhoneNumberObserver.notify o' phoneNumber eventType now).1).
  { intros o' a Ha.
    destruct (notify_shape o' phoneNumber eventType now)
      as [[-> _] | (call & q & -> & _)].
    - rewrite builtin_launched_actions. exact Ha.
    - rewrite map_app, builtin_launched_actions. apply elem_of_app. auto. }
  split; apply Hpre; unfold Spec.builtin_actions.
  - rewrite bool_decide_eq_true_2 by (simpl; set_solver).
    apply elem_of_app. left. apply list_elem_of_singleton. reflexivity.
  - rewrite (bool_decide_eq_true_2 (js "detailed" ∈ _)) by (simpl; set_solver).
    apply elem_of_app. right. apply list_elem_of_singleton. reflexivity.
Qed.

End Custom.

(** ** Querying the history *)

Section Query.

Implicit Types (tel : Telephone.t) (ty : option jsstring).

Lemma filter_none {A : Type} (P : A -> Prop) `{!forall x, Decision (P x)}
    (l : list A) :
  (forall x, ~ P x) -> filter P l = [].
Proof.
  intros HP. induction l as [|x l IH]; [reflexivity |].
  rewrite filter_cons_False by apply HP. exact IH.
Qed.

(** X22: a range whose end is before its start selects nothing, whatever
    the log and the type asked for. *)
Theorem getEventHistory_empty_range ty (d1 d2 : instant) tel :
  (d2 < d1)%Z ->
  Telephone.getEventHistory (Telephone.Filter ty (Some d1) (Some d2)) tel = [].
Proof.
  intros Hlt. unfold Telephone.getEventHistory. simpl.
  rewrite list_filter_filter. apply filter_none. intros e. lia.
Qed.

Lemma getEventHistory_empty_range_witness :
  Telephone.getEventHistory
    (Telephone.Filter (Some (js "add")) (Some 5%Z) (Some 0%Z)) Example.one_added
  = [].
Proof. apply getEventHistory_empty_range. lia. Defined.

Lemma filter_sublist_mono {A : Type} (P : A -> Prop) `{!forall x, Decision (P x)}
    (l k : list A) :
  sublist l k -> sublist (filter P l) (filter P k).
Proof.
  induction 1 as [| x l k _ IH | x l k _ IH].
  - constructor.
  - rewrite !filter_cons. case_decide; [constructor |]; exact IH.
  - rewrite (filter_cons _ x k). case_decide; [constructor |]; exact IH.
Qed.

(** X23: every option narrows the answer: what a filter with a type and
    a range returns is, in the same order, part of what the type alone
    returns and part of what the range alone returns. *)
Theorem getEventHistory_options_narrow ty (d1 d2 : option instant) tel :
  sublist (Telephone.getEventHistory (Telephone.Filter ty d1 d2) tel)
          (Telephone.getEventHistory (Telephone.Filter ty None None) tel)
  /\ sublist (Telephone.getEventHistory (Telephone.Filter ty d1 d2) tel)
             (Telephone.getEventHistory (Telephone.Filter None d1 d2) tel).
Proof.
  unfold Telephone.getEventHistory. simpl. split.
  - destruct d1, d2; try reflexivity; try apply sublist_filter.
    etransitivity; apply sublist_filter.
  - destruct (Telephone.truthy_string ty) as [t |]; [| reflexivity].
    assert (Hs : sublist (filter (fun e => PhoneEvent.type e = t)
                            (Telephone.eventHistory tel))
                         (Telephone.eventHistory tel)) by apply sublist_filter.
    destruct d1, d2; repeat apply filter_sublist_mono; exact Hs.
Qed.

End Query.

(** ** addToHistory at any capacity *)

